(** * Umi-OCR: the logging module [umi_log.py] and the text writer
      [output_txt.py], embedded and checked against their specification.

    The two Python files are translated function by function.  Python
    values are a small inductive universe, a log record is its attribute
    dictionary, exceptions are a [result] type, and the file system and
    the standard-error stream are explicit state.  What the files take
    from the Python standard library and from the host (the [%] operator,
    [str()], local time, path handling) is gathered in a [Platform]
    record over which the development is parametric. *)

From stdpp Require Import gmap strings list fin_maps.
From Stdlib Require Import ZArith DecimalString Ascii String.

Open Scope string_scope.
Open Scope Z_scope.

(** ** Exceptions and fallible computations *)

Inductive exn :=
| TypeError | ValueError | AttributeError | KeyError
| NameError | UnboundLocalError | OSError.

(** The result of a computation that touches no state. *)
Inductive result (A : Type) :=
| Ok (a : A)
| Raise (e : exn).
Arguments Ok {A} a.
Arguments Raise {A} e.

#[global] Instance result_ret : MRet result := fun _ a => Ok a.
#[global] Instance result_bind : MBind result := fun _ _ f m =>
  match m with Ok a => f a | Raise e => Raise e end.

(** The outcome of a call: it returns, it raises, or the recursion budget
    of the model ran out before it did either ([Diverged]). *)
Inductive outcome (A : Type) :=
| Returns (a : A)
| Raises (e : exn)
| Diverged.
Arguments Returns {A} a.
Arguments Raises {A} e.
Arguments Diverged {A}.

Definition outcome_of {A} (r : result A) : outcome A :=
  match r with Ok a => Returns a | Raise e => Raises e end.

(** Code that changes a state [S]: the state reached is returned whatever
    the outcome, since what was done before an exception stays done. *)
Definition stx (S A : Type) : Type := S -> outcome A * S.

#[global] Instance stx_ret {S} : MRet (stx S) := fun _ a s => (Returns a, s).
#[global] Instance stx_bind {S} : MBind (stx S) := fun _ _ f m s =>
  match m s with
  | (Returns a, s') => f a s'
  | (Raises e, s') => (Raises e, s')
  | (Diverged, s') => (Diverged, s')
  end.

Definition settle {S A} (o : outcome A) : stx S A := fun s => (o, s).
Definition lift {S A} (r : result A) : stx S A := settle (outcome_of r).
Definition raise {S A} (e : exn) : stx S A := settle (Raises e).
Definition diverge {S A} : stx S A := settle Diverged.
Definition gets {S A} (f : S -> A) : stx S A := fun s => (Returns (f s), s).
Definition modify {S} (f : S -> S) : stx S unit := fun s => (Returns tt, f s).

(** [try: body / except Exception: handler]. *)
Definition try_except {S A} (body : stx S A) (handler : exn -> stx S A) : stx S A :=
  fun s =>
    match body s with
    | (Raises e, s') => handler e s'
    | r => r
    end.

(** ** Python values *)

(** [PObj] stands for a plain instance such as [object()]: it is truthy
    and hashable, has no [items()], and [json] cannot encode it.
    Floating-point numbers are not part of the universe. *)
#[warnings="-register-all"]
Inductive pyval :=
| PNone
| PBool (b : bool)
| PInt (z : Z)
| PStr (s : string)
| PTuple (l : list pyval)
| PList (l : list pyval)
| PDict (m : gmap string pyval)
| PObj (tag : positive).

(** [bool(v)]. *)
Definition truthy (v : pyval) : bool :=
  match v with
  | PNone => false
  | PBool b => b
  | PInt z => negb (z =? 0)
  | PStr s => negb (String.eqb s "")
  | PTuple l | PList l => match l with [] => false | _ => true end
  | PDict m => negb (bool_decide (m = ∅))
  | PObj _ => true
  end.

(** A measure for induction on values nested in tuples and dictionaries. *)
Fixpoint pyval_size (v : pyval) : nat :=
  match v with
  | PTuple l | PList l =>
      S (foldr (fun n acc => (n + acc)%nat) 0%nat (map pyval_size l))
  | PDict m => S (map_fold (fun _ n acc => (n + acc)%nat) 0%nat (pyval_size <$> m))
  | _ => 1%nat
  end.

(** ** Text *)

Definition newline : ascii := "010"%char.
Definition dquote : ascii := "034"%char.
Definition bslash : ascii := "092"%char.
Definition NL : string := String newline "".

Fixpoint count_nl (s : string) : nat :=
  match s with
  | EmptyString => 0%nat
  | String c s' => ((if Ascii.eqb c newline then 1 else 0) + count_nl s')%nat
  end.

(** [str(n)] for an integer. *)
Definition dec (z : Z) : string := NilZero.string_of_int (Z.to_int z).

(** Left padding with zeros up to [w] characters, as the numeric
    [strftime] directives do. *)
Fixpoint zeros (n : nat) : string :=
  match n with O => "" | S n' => String "0" (zeros n') end.

Definition zfill (w : nat) (s : string) : string :=
  zeros (w - String.length s) +:+ s.

(** ** The [json] encoder, as [json.dump(obj, f, ensure_ascii=False)]
    drives it.

    [json.dump] writes the encoder's chunks to the file one by one, so an
    object that cannot be encoded leaves the chunks produced before it in
    the file.  Every function returns the text written and whether the
    encoding completed. *)

Definition hexdigit (n : N) : ascii :=
  ascii_of_N (if (n <? 10)%N then 48 + n else 87 + n)%N.

Definition escape_char (c : ascii) : string :=
  let n := N_of_ascii c in
  if (n =? 34)%N then String bslash (String dquote "")
  else if (n =? 92)%N then String bslash (String bslash "")
  else if (n =? 10)%N then String bslash "n"
  else if (n =? 13)%N then String bslash "r"
  else if (n =? 9)%N then String bslash "t"
  else if (n =? 8)%N then String bslash "b"
  else if (n =? 12)%N then String bslash "f"
  else if (n <? 32)%N then
    String bslash ("u00" +:+ String (hexdigit (n / 16)) (String (hexdigit (n mod 16)) ""))
  else String c "".

Fixpoint escape (s : string) : string :=
  match s with
  | EmptyString => ""
  | String c s' => escape_char c +:+ escape s'
  end.

Definition encode_basestring (s : string) : string :=
  String dquote (escape s) +:+ String dquote "".

(** Elements of a list or tuple, already encoded, separated by [", "]. *)
Fixpoint iterencode_items (first : bool) (l : list (string * bool)) : string * bool :=
  match l with
  | [] => ("", true)
  | (t, ok) :: l' =>
      let buf := (if first then "" else ", ") +:+ t in
      if ok then
        let '(rest, ok') := iterencode_items false l' in (buf +:+ rest, ok')
      else (buf, false)
  end.

Definition iterencode_list (l : list (string * bool)) : string * bool :=
  match l with
  | [] => ("[]", true)
  | _ => let '(t, ok) := iterencode_items true l in
         ("[" +:+ t +:+ (if ok then "]" else ""), ok)
  end.

(** Members of a dictionary, values already encoded: [key: value]
    separated by [", "]. *)
Fixpoint iterencode_members (first : bool) (l : list (string * (string * bool)))
  : string * bool :=
  match l with
  | [] => ("", true)
  | (k, (t, ok)) :: l' =>
      let buf := (if first then "" else ", ") +:+ encode_basestring k +:+ ": " +:+ t in
      if ok then
        let '(rest, ok') := iterencode_members false l' in (buf +:+ rest, ok')
      else (buf, false)
  end.

Definition iterencode_dict (l : list (string * (string * bool))) : string * bool :=
  match l with
  | [] => ("{}", true)
  | _ => let '(t, ok) := iterencode_members true l in
         ("{" +:+ t +:+ (if ok then "}" else ""), ok)
  end.

(** Members of a dictionary held in a value are written in the map's
    enumeration order (a [gmap] does not record insertion order); no
    statement below depends on that order. *)
Fixpoint iterencode (v : pyval) : string * bool :=
  match v with
  | PNone => ("null", true)
  | PBool b => (if b then "true" else "false", true)
  | PInt z => (dec z, true)
  | PStr s => (encode_basestring s, true)
  | PTuple l | PList l => iterencode_list (map iterencode l)
  | PDict m => iterencode_dict (map_to_list (iterencode <$> m))
  | PObj _ => ("", false)
  end.

(** The dictionary built by [_record_to_dict] keeps its keys in the order
    of the dictionary display, so it is an association list. *)
Definition json_dump (d : list (string * pyval)) : string * bool :=
  iterencode_dict (map (fun kv => (kv.1, iterencode kv.2)) d).

(** ** Local time *)

Record datetime := {
  year : Z; month : Z; day : Z;
  hour : Z; minute : Z; second : Z; microsecond : Z
}.

(** [dt.strftime("%Y-%m-%d %H:%M:%S.%f")]. *)
Definition strftime_full (dt : datetime) : string :=
  zfill 4 (dec (year dt)) +:+ "-" +:+ zfill 2 (dec (month dt)) +:+ "-" +:+
  zfill 2 (dec (day dt)) +:+ " " +:+ zfill 2 (dec (hour dt)) +:+ ":" +:+
  zfill 2 (dec (minute dt)) +:+ ":" +:+ zfill 2 (dec (second dt)) +:+ "." +:+
  zfill 6 (dec (microsecond dt)).

(** [strftime("%Y-%m-%d")]. *)
Definition strftime_date (dt : datetime) : string :=
  zfill 4 (dec (year dt)) +:+ "-" +:+ zfill 2 (dec (month dt)) +:+ "-" +:+
  zfill 2 (dec (day dt)).

(** [strftime("%H:%M:%S")]. *)
Definition strftime_clock (dt : datetime) : string :=
  zfill 2 (dec (hour dt)) +:+ ":" +:+ zfill 2 (dec (minute dt)) +:+ ":" +:+
  zfill 2 (dec (second dt)).

(** ** What the module takes from the standard library and the host *)

Record Platform := {
  (** [str(v)] for a tuple, a list, a dictionary or a plain object *)
  py_repr : pyval -> string;
  (** [s % args] *)
  str_mod : string -> pyval -> result string;
  (** [datetime.fromtimestamp(t)], in the local time zone *)
  fromtimestamp : pyval -> result datetime;
  (** [os.path.basename] *)
  basename : string -> string;
  (** [os.path.splitext(name)[0]] *)
  splitext_root : string -> string;
  (** [os.path.join] *)
  path_join : string -> string -> string;
  (** [os.path.abspath] *)
  abspath : string -> string
}.

(** ** Log records

    A record is its attribute dictionary ([record.__dict__]); the
    attributes of a record are the entries of that dictionary.  Names
    that only the class resolves (the methods of [LogRecord]) are not
    attributes in this sense. *)

Abbreviation LogRecord := (gmap string pyval).

Definition getattr (record : LogRecord) (k : string) : result pyval :=
  match record !! k with Some v => Ok v | None => Raise AttributeError end.

Definition hasattr (record : LogRecord) (k : string) : bool :=
  bool_decide (is_Some (record !! k)).

Definition setattr (record : LogRecord) (k : string) (v : pyval) : LogRecord :=
  <[k := v]> record.

(** [d[k]] on [record.__dict__], as [fmt % record.__dict__] reads it. *)
Definition getitem (record : LogRecord) (k : string) : result pyval :=
  match record !! k with Some v => Ok v | None => Raise KeyError end.

Section WithPlatform.

Context (P : Platform).

(** [str(v)]. *)
Definition py_str (v : pyval) : string :=
  match v with
  | PNone => "None"
  | PBool b => if b then "True" else "False"
  | PInt z => dec z
  | PStr s => s
  | _ => py_repr P v
  end.

(** [LogRecord.getMessage]:
    [msg = str(self.msg); if self.args: msg = msg % self.args]. *)
Definition getMessage (record : LogRecord) : result string :=
  msg ← getattr record "msg";
  args ← getattr record "args";
  if truthy args then str_mod P (py_str msg) args else Ok (py_str msg).

End WithPlatform.

(** ** Formatting a record for the console *)

(** Reading and writing an attribute of the record being formatted. *)
Definition rd (k : string) : stx LogRecord pyval :=
  fun record => lift (getattr record k) record.
Definition rd_item (k : string) : stx LogRecord pyval :=
  fun record => lift (getitem record k) record.
Definition wr (k : string) (v : pyval) : stx LogRecord unit :=
  modify (fun record => setattr record k v).

Fixpoint hashable (v : pyval) : bool :=
  match v with
  | PDict _ | PList _ => false
  | PTuple l => forallb hashable l
  | _ => true
  end.

Definition ends_with_nl (s : string) : bool :=
  match String.length s with
  | O => false
  | S n => String.eqb (String.substring n 1 s) NL
  end.

(** [if s[-1:] != "\n": s = s + "\n"]. *)
Definition with_nl (s : string) : string :=
  if ends_with_nl s then s else s +:+ NL.

Module _LevelFormatter.

Definition LEVEL_SYMBOLS : gmap string string :=
  list_to_map [
    ("DEBUG", "√");
    ("INFO", "i");
    ("WARNING", "?");
    ("ERROR", "×");
    ("CRITICAL", "!")
  ].

(** [self.LEVEL_SYMBOLS.get(levelname, levelname)]. *)
Definition get_symbol (levelname : pyval) : result pyval :=
  match levelname with
  | PStr s => Ok (default levelname (PStr <$> LEVEL_SYMBOLS !! s))
  | _ => if hashable levelname then Ok levelname else Raise TypeError
  end.

Section WithPlatform.
Context (P : Platform).

(** [logging.Formatter.format], the [super().format(record)] of the
    source, for the format
    ["%(asctime)s %(levelsymbol)s %(funcName)s | %(message)s"] and the
    date format ["%H:%M:%S"].  The active exception of a record
    ([exc_info]) is carried as the text [formatException] gives for it. *)
Definition Formatter_format : stx LogRecord string :=
  message ← (fun record => lift (getMessage P record) record);
  wr "message" (PStr message);;
  created ← rd "created";
  dt ← lift (fromtimestamp P created);
  wr "asctime" (PStr (strftime_clock dt));;
  asctime ← rd_item "asctime";
  levelsymbol ← rd_item "levelsymbol";
  funcName ← rd_item "funcName";
  message ← rd_item "message";
  let s := py_str P asctime +:+ " " +:+ py_str P levelsymbol +:+ " " +:+
           py_str P funcName +:+ " | " +:+ py_str P message in
  exc_info ← rd "exc_info";
  (if truthy exc_info then
     exc_text ← rd "exc_text";
     if truthy exc_text then mret tt
     else wr "exc_text" (PStr (py_str P exc_info))
   else mret tt);;
  exc_text ← rd "exc_text";
  let s := if truthy exc_text then with_nl s +:+ py_str P exc_text else s in
  stack_info ← rd "stack_info";
  let s := if truthy stack_info then with_nl s +:+ py_str P stack_info else s in
  mret s.

Definition format : stx LogRecord string :=
  levelname ← rd "levelname";
  levelsymbol ← lift (get_symbol levelname);
  wr "levelsymbol" levelsymbol;;
  Formatter_format.

End WithPlatform.
End _LevelFormatter.

(** ** The process: files, standard error, loggers *)

Inductive node :=
| File (data : string)
| Dir.

(** What reaches [sys.stderr]: the text a stream handler writes for a
    record, or the report [Handler.handleError] prints for an exception. *)
Inductive event :=
| Written (text : string)
| LoggingError (e : exn).

(** The constructor arguments of the rotating file handler. *)
Record RotatingFileHandler := {
  baseFilename : string;
  mode : string;
  maxBytes : Z;
  backupCount : Z;
  encoding : string;
  delay : bool
}.

Inductive handler_kind :=
| ConsoleHandler
| JsonHandler (cfg : RotatingFileHandler).

(** Handlers and filters are objects: [hid] is the identity that
    [addHandler] and [addFilter] compare. *)
Record handler := {
  hid : positive;
  hlevel : Z;
  hkind : handler_kind
}.

Record Logger := {
  llevel : Z;
  lfilters : list positive;
  lhandlers : list handler
}.

Record world := {
  fs : gmap string node;
  stderr : list event;
  loggers : gmap string Logger;
  next_id : positive;
  (** [datetime.now()] *)
  now : datetime;
  (** [time.time()] and the running thread and process *)
  clock : pyval;
  thread : Z;
  threadName : string;
  process : Z;
  processName : string
}.

Definition set_fs (f : gmap string node -> gmap string node) (w : world) : world :=
  {| fs := f (fs w); stderr := stderr w; loggers := loggers w;
     next_id := next_id w; now := now w; clock := clock w;
     thread := thread w; threadName := threadName w;
     process := process w; processName := processName w |}.

Definition set_stderr (f : list event -> list event) (w : world) : world :=
  {| fs := fs w; stderr := f (stderr w); loggers := loggers w;
     next_id := next_id w; now := now w; clock := clock w;
     thread := thread w; threadName := threadName w;
     process := process w; processName := processName w |}.

Definition set_loggers (f : gmap string Logger -> gmap string Logger) (w : world) : world :=
  {| fs := fs w; stderr := stderr w; loggers := f (loggers w);
     next_id := next_id w; now := now w; clock := clock w;
     thread := thread w; threadName := threadName w;
     process := process w; processName := processName w |}.

Definition set_next_id (f : positive -> positive) (w : world) : world :=
  {| fs := fs w; stderr := stderr w; loggers := loggers w;
     next_id := f (next_id w); now := now w; clock := clock w;
     thread := thread w; threadName := threadName w;
     process := process w; processName := processName w |}.

Abbreviation py := (stx world).

(** [open(path, "a")]: the file is created when it does not exist; of the
    ways the host can refuse, the model has the one the file system
    itself shows, a path that names a directory. *)
Definition open_append (path : string) : py unit :=
  fun w =>
    match fs w !! path with
    | Some Dir => (Raises OSError, w)
    | Some (File _) => (Returns tt, w)
    | None => (Returns tt, set_fs <[path := File ""]> w)
    end.

(** [f.write(text)] on a file opened for appending.  The [with] block
    closes the file on every exit, so what was written reaches the file
    also when a later statement of the block raises. *)
Definition write (path : string) (text : string) : py unit :=
  modify (set_fs (fun m =>
    match m !! path with
    | Some (File data) => <[path := File (data +:+ text)]> m
    | _ => m
    end)).

(** [json.dump(obj, f, ensure_ascii=False)]. *)
Definition json_dump_to (path : string) (d : list (string * pyval)) : py unit :=
  let '(text, ok) := json_dump d in
  write path text;;
  if ok then mret tt else raise TypeError.

(** [Handler.handleError]: the exception being handled is reported on
    [sys.stderr]; nothing is raised and no logger is called. *)
Definition handleError (e : exn) (record : LogRecord) : py unit :=
  modify (set_stderr (fun out => (out ++ [LoggingError e])%list)).

(** [stream.write(msg + self.terminator)] on [sys.stderr]. *)
Definition stderr_write (text : string) : py unit :=
  modify (set_stderr (fun out => (out ++ [Written text])%list)).

(** [logging.StreamHandler.emit] with the [_LevelFormatter]:
    [try: msg = self.format(record); stream.write(msg + "\n")]
    [except Exception: self.handleError(record)].  The record comes back
    as the formatter left it. *)
Definition StreamHandler_emit (P : Platform) (record : LogRecord) : py LogRecord :=
  let '(msg, record') := _LevelFormatter.format P record in
  try_except
    (msg ← settle msg; stderr_write (msg +:+ NL))
    (fun e => handleError e record');;
  mret record'.

(** ** [_JsonRotatingFileHandler] *)

Module _JsonRotatingFileHandler.
Section WithPlatform.
Context (P : Platform).

Definition _record_to_dict (record : LogRecord) : result (list (string * pyval)) :=
  created ← getattr record "created";
  dt_object ← fromtimestamp P created;
  let formatted_time := strftime_full dt_object in
  levelname ← getattr record "levelname";
  message ← getMessage P record;
  filename ← getattr record "filename";
  lineno ← getattr record "lineno";
  module ← getattr record "module";
  funcName ← getattr record "funcName";
  exc_text ← getattr record "exc_text";
  stack_info ← getattr record "stack_info";
  thread ← getattr record "thread";
  threadName ← getattr record "threadName";
  process ← getattr record "process";
  processName ← getattr record "processName";
  name ← getattr record "name";
  Ok [
    ("time", PStr formatted_time);
    ("level", levelname);
    ("message", PStr message);
    ("filename", filename);
    ("lineno", lineno);
    ("module", module);
    ("funcName", funcName);
    ("exc_text", exc_text);
    ("stack_info", stack_info);
    ("thread", thread);
    ("threadName", threadName);
    ("process", process);
    ("processName", processName);
    ("name", name)
  ].

(** The local variable [log_dict] is bound only when the first [try]
    block completed; reading it unbound raises. *)
Definition read_local {A} (x : option A) : py A :=
  match x with
  | Some a => mret a
  | None => raise UnboundLocalError
  end.

Definition emit (self : RotatingFileHandler) (record : LogRecord) : py unit :=
  log_dict ← try_except
    (d ← lift (_record_to_dict record); mret (Some d))
    (fun e => handleError e record;; mret None);
  try_except
    (open_append (baseFilename self);;
     d ← read_local log_dict;
     json_dump_to (baseFilename self) d;;
     write (baseFilename self) NL)
    (fun e => handleError e record).

End WithPlatform.
End _JsonRotatingFileHandler.

(** ** [_CoverFilter] *)

Definition DEBUG : Z := 10.
Definition INFO : Z := 20.
Definition WARNING : Z := 30.
Definition ERROR : Z := 40.
Definition CRITICAL : Z := 50.

(** Where a logging call is made from, and what the interpreter knows
    there: the exception being handled, if any, and the text of the
    call stack. *)
Record site := {
  s_pathname : string;
  s_lineno : Z;
  s_funcName : string;
  s_active_exc : option exn;
  s_stack : string
}.

Definition exn_text (e : exn) : string :=
  match e with
  | TypeError => "TypeError"
  | ValueError => "ValueError"
  | AttributeError => "AttributeError"
  | KeyError => "KeyError"
  | NameError => "NameError"
  | UnboundLocalError => "UnboundLocalError"
  | OSError => "OSError"
  end.

(** A severity-named method of the module's global [logger]:
    [logger.error(msg, exc_info=..., stack_info=..., extra=...)] is
    [call ERROR site msg exc_info stack_info extra]. *)
Definition logger_call : Type :=
  Z -> site -> pyval -> bool -> bool -> option (gmap string pyval) -> py unit.

Module _CoverFilter.

(** [cover.items()]: only a dictionary has it. *)
Definition items (cover : pyval) : result (gmap string pyval) :=
  match cover with
  | PDict m => Ok m
  | _ => Raise AttributeError
  end.

(** One turn of the loop: [if hasattr(record, k): setattr(record, k, v)]. *)
Definition cover_step (k : string) (v : pyval) (record : LogRecord) : LogRecord :=
  if hasattr record k then setattr record k v else record.

(** The [try] block up to its [return True]:
    [cover = record.__dict__.get("cover", {})] and the loop over its items. *)
Definition apply_cover (record : LogRecord) : result LogRecord :=
  let cover := default (PDict ∅) (record !! "cover") in
  m ← items cover;
  Ok (map_fold cover_step record m).

(** The frame of the [except] block, with the exception it caught. *)
Definition except_site (e : exn) : site :=
  {| s_pathname := "umi_log.py"; s_lineno := 49; s_funcName := "filter";
     s_active_exc := Some e; s_stack := "Stack (most recent call last):" |}.

(** [filter] returns its verdict; the record it was given comes back with
    the attributes the loop has set. *)
Definition filter (logger : logger_call) (record : LogRecord) : py (bool * LogRecord) :=
  try_except
    (record' ← lift (apply_cover record); mret (true, record'))
    (fun e =>
       logger ERROR (except_site e) (PStr "日志过滤错误") true true None;;
       mret (false, record)).

End _CoverFilter.

(** ** The [logging] machinery the module relies on

    Ancestor loggers and the last-resort handler are left out: the root
    logger is taken to have no handler, as in a process that sets up
    logging through this module only. *)

(** [logging.getLevelName]. *)
Definition getLevelName (level : Z) : string :=
  if level =? CRITICAL then "CRITICAL"
  else if level =? ERROR then "ERROR"
  else if level =? WARNING then "WARNING"
  else if level =? INFO then "INFO"
  else if level =? DEBUG then "DEBUG"
  else if level =? 0 then "NOTSET"
  else "Level " +:+ dec level.

(** [record.levelno >= hdlr.level]. *)
Definition ge_level (levelno : pyval) (level : Z) : result bool :=
  match levelno with
  | PInt n => Ok (level <=? n)
  | PBool b => Ok (level <=? (if b then 1 else 0))
  | _ => Raise TypeError
  end.

Section Logging.
Context (P : Platform).

(** [LogRecord.__init__] (its two float attributes [msecs] and
    [relativeCreated], which nothing here reads, are left out). *)
Definition LogRecord_init (w : world) (name : string) (level : Z) (s : site)
    (msg args exc_info sinfo : pyval) : LogRecord :=
  let args :=
    match args with
    | PTuple [PDict m] => if truthy (PDict m) then PDict m else args
    | _ => args
    end in
  let filename := basename P (s_pathname s) in
  list_to_map [
    ("name", PStr name);
    ("msg", msg);
    ("args", args);
    ("levelname", PStr (getLevelName level));
    ("levelno", PInt level);
    ("pathname", PStr (s_pathname s));
    ("filename", PStr filename);
    ("module", PStr (splitext_root P filename));
    ("exc_info", exc_info);
    ("exc_text", PNone);
    ("stack_info", sinfo);
    ("lineno", PInt (s_lineno s));
    ("funcName", PStr (s_funcName s));
    ("created", clock w);
    ("thread", PInt (thread w));
    ("threadName", PStr (threadName w));
    ("processName", PStr (processName w));
    ("process", PInt (process w))
  ].

(** [Logger.makeRecord]: the entries of [extra] are added to the record;
    a key that the record already has, or one of ["message"] and
    ["asctime"], raises [KeyError]. *)
Definition extra_allowed (rv : LogRecord) (extra : gmap string pyval) : bool :=
  map_fold (fun k _ ok =>
      ok && negb (String.eqb k "message" || String.eqb k "asctime" || hasattr rv k))
    true extra.

Definition makeRecord (name : string) (level : Z) (s : site)
    (msg args exc_info : pyval) (extra : option (gmap string pyval)) (sinfo : pyval)
  : py LogRecord :=
  rv ← gets (fun w => LogRecord_init w name level s msg args exc_info sinfo);
  match extra with
  | None => mret rv
  | Some extra =>
      if extra_allowed rv extra then mret (extra ∪ rv) else raise KeyError
  end.

(** [Filterer.filter]: the filters in turn, up to the first that rejects. *)
Fixpoint Filterer_filter (f : LogRecord -> py (bool * LogRecord))
    (filters : list positive) (record : LogRecord) : py (bool * LogRecord) :=
  match filters with
  | [] => mret (true, record)
  | _ :: rest =>
      '(result, record) ← f record;
      if result : bool then Filterer_filter f rest record else mret (false, record)
  end.

(** [Handler.handle]: the handlers of this module carry no filter. *)
Definition Handler_handle (h : handler) (record : LogRecord) : py LogRecord :=
  match hkind h with
  | ConsoleHandler => StreamHandler_emit P record
  | JsonHandler cfg => _JsonRotatingFileHandler.emit P cfg record;; mret record
  end.

(** [Logger.callHandlers]. *)
Fixpoint callHandlers (hs : list handler) (record : LogRecord) : py unit :=
  match hs with
  | [] => mret tt
  | h :: rest =>
      levelno ← lift (getattr record "levelno");
      enabled ← lift (ge_level levelno (hlevel h));
      record ← (if enabled : bool then Handler_handle h record else mret record);
      callHandlers rest record
  end.

(** The module-level name [logger] is bound to the logger registered as
    ["Umi-OCR"]; in a process where the module has not created it the
    name is unbound. *)
Definition logger_name : string := "Umi-OCR".

Definition the_logger (name : string) : py Logger :=
  fun w =>
    match loggers w !! name with
    | Some lg => (Returns lg, w)
    | None => (Raises NameError, w)
    end.

(** [Logger._log] behind [Logger.isEnabledFor], on the global [logger]:
    [handle] is [Logger.handle]. *)
Definition Logger_log (handle : string -> LogRecord -> py unit) : logger_call :=
  fun level s msg exc_info stack_info extra =>
    lg ← the_logger logger_name;
    if llevel lg <=? level then
      let sinfo := if stack_info then PStr (s_stack s) else PNone in
      let exc :=
        if exc_info then
          match s_active_exc s with
          | Some e => PStr (exn_text e)
          | None => PStr "NoneType: None"
          end
        else PNone in
      record ← makeRecord logger_name level s msg (PTuple []) exc extra sinfo;
      handle logger_name record
    else mret tt.

(** [Logger.handle].  The override filter logs through [logger] when it
    fails, which comes back here: [fuel] bounds that nesting. *)
Fixpoint Logger_handle (fuel : nat) (name : string) (record : LogRecord) : py unit :=
  match fuel with
  | O => diverge
  | S fuel' =>
      lg ← the_logger name;
      '(rv, record) ← Filterer_filter
          (_CoverFilter.filter (Logger_log (Logger_handle fuel'))) (lfilters lg) record;
      if rv : bool then callHandlers (lhandlers lg) record else mret tt
  end.

(** The global [logger] as the rest of the program calls it. *)
Definition logger (fuel : nat) : logger_call := Logger_log (Logger_handle fuel).

End Logging.

(** ** [_LogManager] *)

Module _LogManager.

Definition _log_dir : string := "./logs".

(** A new object: its identity is the next unused one. *)
Definition fresh : py positive :=
  fun w => (Returns (next_id w), set_next_id Pos.succ w).

(** [logging.getLogger(name)]: the logger registered under [name],
    created on first use. *)
Definition getLogger (name : string) : py unit :=
  modify (set_loggers (fun m =>
    match m !! name with
    | Some _ => m
    | None => <[name := {| llevel := 0; lfilters := []; lhandlers := [] |}]> m
    end)).

(** [Filterer.addFilter]: [if not (filter in self.filters): append]. *)
Definition addFilter (name : string) (f : positive) : py unit :=
  modify (set_loggers (alter (fun lg =>
    if bool_decide (f ∈ lfilters lg) then lg
    else {| llevel := llevel lg; lfilters := lfilters lg ++ [f];
            lhandlers := lhandlers lg |}) name)).

Definition setLevel (name : string) (level : Z) : py unit :=
  modify (set_loggers (alter (fun lg =>
    {| llevel := level; lfilters := lfilters lg; lhandlers := lhandlers lg |}) name)).

(** [Logger.addHandler]: [if not (hdlr in self.handlers): append]. *)
Definition addHandler (name : string) (h : handler) : py unit :=
  modify (set_loggers (alter (fun lg =>
    if bool_decide (hid h ∈ map hid (lhandlers lg)) then lg
    else {| llevel := llevel lg; lfilters := lfilters lg;
            lhandlers := lhandlers lg ++ [h] |}) name)).

(** [os.makedirs]. *)
Definition makedirs (path : string) : py unit :=
  modify (set_fs <[path := Dir]>).

Definition _get_console_handler : py handler :=
  id ← fresh;
  mret {| hid := id; hlevel := DEBUG; hkind := ConsoleHandler |}.

Section WithPlatform.
Context (P : Platform).

Definition _get_json_handler : py handler :=
  present ← gets (fun w => bool_decide (is_Some (fs w !! _log_dir)));
  (if present : bool then mret tt else makedirs _log_dir);;
  current_date ← gets (fun w => strftime_date (now w));
  let log_file := path_join P _log_dir (current_date +:+ ".jsonl.txt") in
  id ← fresh;
  mret {| hid := id; hlevel := DEBUG;
          hkind := JsonHandler {|
            baseFilename := abspath P log_file;
            mode := "a";
            maxBytes := 10485760;
            backupCount := 3;
            encoding := "utf-8";
            delay := true |} |}.

(** The logger is returned as the name it is registered under. *)
Definition create_logger (name : string) : py string :=
  getLogger name;;
  cover_filter ← fresh;
  addFilter name cover_filter;;
  setLevel name DEBUG;;
  console_handler ← _get_console_handler;
  addHandler name console_handler;;
  json_handler ← _get_json_handler;
  addHandler name json_handler;;
  mret name.

End WithPlatform.
End _LogManager.

(** ** The Qt message handler *)

(** Modelled from the spec: the toolkit's [QtMsgType] is not in src.  It
    has the five severities the spec lists; [QtOtherMsg] is a value of
    the [mode] argument that is none of them. *)
Inductive QtMsgType :=
| QtDebugMsg | QtInfoMsg | QtWarningMsg | QtCriticalMsg | QtFatalMsg
| QtOtherMsg (code : Z).

(** Modelled from the spec: the toolkit's [QMessageLogContext] is not in
    src.  Each field is either unavailable ([None]) or holds a value of
    its toolkit type: text for the file, the function and the category,
    an integer for the line and the version. *)
Record QMessageLogContext := {
  file : option string;
  function : option string;
  line : option Z;
  category : option string;
  version : option Z
}.

(** [getattr(context, name, "?")]. *)
Definition text_or_unknown (x : option string) : pyval := PStr (default "?" x).
Definition int_or_unknown (x : option Z) : pyval :=
  match x with Some n => PInt n | None => PStr "?" end.

(** The frame of a logging call inside [qt_message_handler]. *)
Definition qt_site (lineno : Z) : site :=
  {| s_pathname := "umi_log.py"; s_lineno := lineno;
     s_funcName := "qt_message_handler"; s_active_exc := None;
     s_stack := "Stack (most recent call last):" |}.

Section QtHandler.
Context (P : Platform).

(** The override map the handler builds. *)
Definition qt_cover (context : QMessageLogContext) : gmap string pyval :=
  let filepath := default "?" (file context) in
  let filename := basename P filepath in
  let funcName := default "?" (function context) in
  let funcName := if truthy (PStr funcName) then funcName else "()=>{}" in
  list_to_map [
    ("category", text_or_unknown (category context));
    ("filename", PStr filename);
    ("funcName", PStr funcName);
    ("lineno", int_or_unknown (line context));
    ("version", int_or_unknown (version context));
    ("module", PStr "qml")
  ].

Definition qt_message_handler (logger : logger_call)
    (mode : QtMsgType) (context : QMessageLogContext) (msg : string) : py unit :=
  let extra : gmap string pyval := {[ "cover" := PDict (qt_cover context) ]} in
  match mode with
  | QtDebugMsg => logger DEBUG (qt_site 207) (PStr msg) false false (Some extra)
  | QtInfoMsg => logger INFO (qt_site 209) (PStr msg) false false (Some extra)
  | QtWarningMsg => logger WARNING (qt_site 211) (PStr msg) false false (Some extra)
  | QtCriticalMsg => logger ERROR (qt_site 213) (PStr msg) false false (Some extra)
  | QtFatalMsg => logger CRITICAL (qt_site 215) (PStr msg) false false (Some extra)
  | QtOtherMsg _ => mret tt
  end.

End QtHandler.

(** ** [OutputTxt]: the text writer *)

Module OutputTxt.

Record t := {
  dir : string;
  fileName : string;
  outputPath : string;
  ingoreBlank : bool
}.

(** The result of one image: [res["code"]], [res["fileName"]], [res["data"]]. *)
Record res := {
  code : Z;
  res_fileName : string;
  data : pyval
}.

Fixpoint chars (s : string) : list pyval :=
  match s with
  | EmptyString => []
  | String c s' => PStr (String c "") :: chars s'
  end.

(** [for r in data]. *)
Definition iterate (v : pyval) : result (list pyval) :=
  match v with
  | PList l | PTuple l => Ok l
  | PStr s => Ok (chars s)
  | PDict m => Ok (map (fun kv => PStr kv.1) (map_to_list m))
  | _ => Raise TypeError
  end.

(** [r["text"] + "\n"]. *)
Definition text_line (r : pyval) : result string :=
  match r with
  | PDict m =>
      match m !! "text" with
      | Some (PStr s) => Ok (s +:+ NL)
      | Some _ => Raise TypeError
      | None => Raise KeyError
      end
  | _ => Raise TypeError
  end.

(** The loop [for r in res["data"]: textOut += r["text"] + "\n"]. *)
Fixpoint add_lines (textOut : string) (l : list pyval) : result string :=
  match l with
  | [] => Ok textOut
  | r :: l' => line ← text_line r; add_lines (textOut +:+ line) l'
  end.

Section WithPlatform.
Context (P : Platform).

Definition print (self : t) (res : res) : py unit :=
  if negb (code res =? 100) && ingoreBlank self then mret tt
  else
    let textOut := "≦ " +:+ res_fileName res +:+ " ≧" +:+ NL in
    textOut ← lift (
      if code res =? 100 then
        l ← iterate (data res); add_lines textOut l
      else if code res =? 101 then
        Ok (textOut +:+ "[Notice] No Text. " +:+ NL +:+ "【通知】图片中未找到文字。" +:+ NL)
      else
        Ok (textOut +:+ "[Error] OCR failed. Code: " +:+ dec (code res) +:+
            ", Msg: " +:+ py_str P (data res) +:+ NL +:+ "【异常】OCR识别失败。" +:+ NL));
    let textOut := textOut +:+ NL in
    open_append (outputPath self);;
    write (outputPath self) textOut.

End WithPlatform.
End OutputTxt.

(** ** A concrete platform, to run the model

    POSIX path handling, UTC as the local time zone, and the [%s], [%d]
    and [%%] directives of the [%] operator. *)

Module Posix.

Fixpoint basename_from (acc s : string) : string :=
  match s with
  | EmptyString => acc
  | String c s' =>
      if Ascii.eqb c "/" then basename_from "" s'
      else basename_from (acc +:+ String c "") s'
  end.

Definition basename (s : string) : string := basename_from "" s.

Fixpoint strip_ext (s : string) : option string :=
  match s with
  | EmptyString => None
  | String c s' =>
      match strip_ext s' with
      | Some r => Some (String c r)
      | None => if Ascii.eqb c "." then Some "" else None
      end
  end.

Definition splitext_root (s : string) : string :=
  match s with
  | EmptyString => ""
  | String c s' =>
      match strip_ext s' with Some r => String c r | None => s end
  end.

Definition path_join (a b : string) : string :=
  if String.prefix "/" b then b
  else if String.eqb a "" then b
  else if String.eqb (String.substring (String.length a - 1) 1 a) "/" then a +:+ b
  else a +:+ "/" +:+ b.

Definition cwd : string := "/opt/umi".

Definition abspath (p : string) : string :=
  if String.prefix "/" p then p
  else if String.prefix "./" p then cwd +:+ String.substring 1 (String.length p - 1) p
  else cwd +:+ "/" +:+ p.

Fixpoint percent (s : string) (args : list pyval) : result string :=
  match s with
  | EmptyString =>
      match args with [] => Ok "" | _ => Raise TypeError end
  | String c s' =>
      if Ascii.eqb c "%" then
        match s' with
        | EmptyString => Raise ValueError
        | String d s'' =>
            if Ascii.eqb d "%" then
              rest ← percent s'' args; Ok (String "%" rest)
            else if Ascii.eqb d "s" then
              match args with
              | a :: args' =>
                  let text :=
                    match a with
                    | PNone => "None"
                    | PBool b => if b then "True" else "False"
                    | PInt z => dec z
                    | PStr t => t
                    | _ => "<object>"
                    end in
                  rest ← percent s'' args'; Ok (text +:+ rest)
              | [] => Raise TypeError
              end
            else if Ascii.eqb d "d" then
              match args with
              | PInt z :: args' => rest ← percent s'' args'; Ok (dec z +:+ rest)
              | _ => Raise TypeError
              end
            else Raise ValueError
        end
      else rest ← percent s' args; Ok (String c rest)
  end.

Definition str_mod (s : string) (args : pyval) : result string :=
  match args with
  | PTuple l => percent s l
  | v => percent s [v]
  end.

(** Days since 1970-01-01 to a civil date. *)
Definition civil_from_days (days : Z) : Z * Z * Z :=
  let z := days + 719468 in
  let era := z / 146097 in
  let doe := z - era * 146097 in
  let yoe := (doe - doe / 1460 + doe / 36524 - doe / 146096) / 365 in
  let doy := doe - (365 * yoe + yoe / 4 - yoe / 100) in
  let mp := (5 * doy + 2) / 153 in
  let d := doy - (153 * mp + 2) / 5 + 1 in
  let m := if mp <? 10 then mp + 3 else mp - 9 in
  let y := yoe + era * 400 + (if m <=? 2 then 1 else 0) in
  (y, m, d).

Definition fromtimestamp (t : pyval) : result datetime :=
  match t with
  | PInt n =>
      let '(y, m, d) := civil_from_days (n / 86400) in
      let s := n mod 86400 in
      Ok {| year := y; month := m; day := d;
            hour := s / 3600; minute := (s mod 3600) / 60; second := s mod 60;
            microsecond := 0 |}
  | _ => Raise TypeError
  end.

Definition platform : Platform :=
  Build_Platform (fun _ => "<object>") str_mod fromtimestamp
    basename splitext_root path_join abspath.

(** A process that has touched nothing yet, on 2024-05-17 at 08:30:15 UTC. *)
Definition boot : world :=
  {| fs := ∅; stderr := []; loggers := ∅; next_id := 1%positive;
     now := {| year := 2024; month := 5; day := 17; hour := 8; minute := 30;
               second := 15; microsecond := 0 |};
     clock := PInt 1715934615;
     thread := 140; threadName := "MainThread";
     process := 4242; processName := "MainProcess" |}.

End Posix.

(** ** Observing a process *)

(** The text of a regular file; empty when there is none. *)
Definition content (w : world) (path : string) : string :=
  match fs w !! path with
  | Some (File data) => data
  | _ => ""
  end.

Definition put_file (path data : string) : world -> world :=
  set_fs <[path := File data]>.

(** The process after [handleError] reported [e]. *)
Definition report (e : exn) : world -> world :=
  set_stderr (fun out => (out ++ [LoggingError e])%list).


Definition line_count (w : world) (path : string) : nat :=
  count_nl (content w path).



(** The fragments of a text result, each on its own line. *)
Fixpoint lines_of (texts : list string) : string :=
  match texts with
  | [] => ""
  | s :: rest => s +:+ NL +:+ lines_of rest
  end.

(** [r] is a block of an OCR result whose text is [s]. *)
Definition block_with_text (r : pyval) (s : string) : Prop :=
  exists m, r = PDict m /\ m !! "text" = Some (PStr s).

(** The mapping of severities the specification gives for the Qt
    message handler. *)
Definition spec_severity (mode : QtMsgType) : option Z :=
  match mode with
  | QtDebugMsg => Some DEBUG
  | QtInfoMsg => Some INFO
  | QtWarningMsg => Some WARNING
  | QtCriticalMsg => Some ERROR
  | QtFatalMsg => Some CRITICAL
  | QtOtherMsg _ => None
  end.

(** The logger registered under [name]; a logger that [getLogger] would
    have to create has no filter and no handler yet. *)
Definition registered (w : world) (name : string) : Logger :=
  default {| llevel := 0; lfilters := []; lhandlers := [] |} (loggers w !! name).

(** Every object the logger [name] holds was created before now. *)
Definition fresh_ids (w : world) (name : string) : Prop :=
  Forall (fun f => (f < next_id w)%positive) (lfilters (registered w name)) /\
  Forall (fun h => (hid h < next_id w)%positive) (lhandlers (registered w name)).

(** The record that the [except] block of the override filter logs after
    it caught [e]. *)
Definition filter_error_record (P : Platform) (w : world) (e : exn) : LogRecord :=
  LogRecord_init P w logger_name ERROR (_CoverFilter.except_site e)
    (PStr "日志过滤错误") (PTuple []) (PStr (exn_text e))
    (PStr (s_stack (_CoverFilter.except_site e))).

(** The line [logging.Formatter.format] renders from the parts of a
    record, and the exception text it leaves cached in the record. *)
Definition console_line (P : Platform) (clock : string) (sym fn : pyval)
    (message : string) (et si : pyval) : string :=
  let s := clock +:+ " " +:+ py_str P sym +:+ " " +:+ py_str P fn +:+ " | " +:+ message in
  let s := if truthy et then with_nl s +:+ py_str P et else s in
  if truthy si then with_nl s +:+ py_str P si else s.

Definition cached_exc_text (P : Platform) (ei et0 : pyval) : pyval :=
  if truthy ei && negb (truthy et0) then PStr (py_str P ei) else et0.



Fixpoint repeat_text (n : nat) (s : string) : string :=
  match n with
  | O => ""
  | S n' => s +:+ repeat_text n' s
  end.

(** The file that [_get_json_handler] names in the process [w]. *)
Definition log_path (P : Platform) (w : world) : string :=
  abspath P (path_join P _LogManager._log_dir (strftime_date (now w) +:+ ".jsonl.txt")).


(** The handlers that [create_logger] builds, and the logger it leaves
    registered under [name]. *)
Definition console_handler (id : positive) : handler :=
  {| hid := id; hlevel := DEBUG; hkind := ConsoleHandler |}.

Definition json_handler (P : Platform) (w : world) (id : positive) : handler :=
  {| hid := id; hlevel := DEBUG;
     hkind := JsonHandler {|
       baseFilename := log_path P w; mode := "a"; maxBytes := 10485760;
       backupCount := 3; encoding := "utf-8"; delay := true |} |}.

Definition configured (P : Platform) (w : world) (name : string) : Logger :=
  let id := next_id w in
  {| llevel := DEBUG;
     lfilters := lfilters (registered w name) ++ [id];
     lhandlers := lhandlers (registered w name) ++
       [console_handler (Pos.succ id); json_handler P w (Pos.succ (Pos.succ id))] |}.





(** The attribute [k] of a record that has it. *)
Definition attr (record : LogRecord) (k : string) : pyval :=
  default PNone (record !! k).

(** An [emit] of the JSON handler fails when the record cannot be turned
    into the dictionary, when the dictionary cannot be encoded, or when
    the file cannot be opened. *)
Definition emit_fails (P : Platform) (self : RotatingFileHandler)
    (record : LogRecord) (w : world) : Prop :=
  (exists e, _JsonRotatingFileHandler._record_to_dict P record = Raise e) \/
  (exists d, _JsonRotatingFileHandler._record_to_dict P record = Ok d /\
             (json_dump d).2 = false) \/
  fs w !! baseFilename self = Some Dir.

(** What [emit] leaves behind, case by case. *)
Definition emit_effect (P : Platform) (self : RotatingFileHandler)
    (record : LogRecord) (w : world) : world :=
  let path := baseFilename self in
  match _JsonRotatingFileHandler._record_to_dict P record with
  | Ok d =>
      match fs w !! path with
      | Some Dir => report OSError w
      | _ =>
          let '(text, ok) := json_dump d in
          if ok then put_file path (content w path +:+ text +:+ NL) w
          else report TypeError (put_file path (content w path +:+ text) w)
      end
  | Raise e =>
      match fs w !! path with
      | Some Dir => report OSError (report e w)
      | _ => report UnboundLocalError (put_file path (content w path) (report e w))
      end
  end.

(** ** Sample inputs on that platform *)

Module Sample.

Definition P : Platform := Posix.platform.

(** A call site in application code. *)
Definition app_site : site :=
  {| s_pathname := "/opt/umi/py_src/run.py"; s_lineno := 12;
     s_funcName := "main"; s_active_exc := None;
     s_stack := "Stack (most recent call last):" |}.

(** The record of [logger.info("hello")]. *)
Definition plain_record : LogRecord :=
  LogRecord_init P Posix.boot "Umi-OCR" INFO app_site
    (PStr "hello") (PTuple []) PNone PNone.



(** [extra={"cover": 3}]: the override is not a mapping. *)
Definition bad_cover_record : LogRecord :=
  <["cover" := PInt 3]> plain_record.

(** [logger.info("%d items", "x")]: the message cannot be resolved. *)
Definition bad_message_record : LogRecord :=
  <["args" := PTuple [PStr "x"]]> (<["msg" := PStr "%d items"]> plain_record).

(** The process after the module was imported, and after a second call
    of [create_logger] with the same name. *)
Definition imported : world :=
  (_LogManager.create_logger P logger_name Posix.boot).2.

Definition twice : world :=
  (_LogManager.create_logger P logger_name imported).2.

(** The JSON handler that [_get_json_handler] builds. *)
Definition json_config : RotatingFileHandler :=
  {| baseFilename := "/opt/umi/logs/2024-05-17.jsonl.txt"; mode := "a";
     maxBytes := 10485760; backupCount := 3; encoding := "utf-8";
     delay := true |}.

(** A QML message from an anonymous function. *)
Definition qml_context : QMessageLogContext :=
  {| file := Some "file:///D:/umi/qml/MainWindow.qml"; function := Some "";
     line := Some 31; category := Some "qml"; version := Some 2 |}.

Definition txt : OutputTxt.t :=
  {| OutputTxt.dir := "/out"; OutputTxt.fileName := "result";
     OutputTxt.outputPath := "/out/result.txt"; OutputTxt.ingoreBlank := true |}.

Definition text_block (s : string) : pyval := PDict {[ "text" := PStr s ]}.

(** The dictionary and the text that [emit] produces for [plain_record]. *)
Definition plain_dict : list (string * pyval) :=
  match _JsonRotatingFileHandler._record_to_dict P plain_record with
  | Ok d => d
  | Raise _ => []
  end.

Definition plain_text : string := (json_dump plain_dict).1.

(** The console line of [plain_record], and the record as the formatter
    leaves it. *)
Definition plain_line : string := "08:30:15 i main | hello".
Definition plain_formatted : LogRecord := (_LevelFormatter.format P plain_record).2.

End Sample.

(** ** More observations and sample inputs *)

(** The dictionary [d] with the value of its member [k] replaced. *)
Definition with_member (k : string) (v : pyval) (d : list (string * pyval))
  : list (string * pyval) :=
  map (fun kv => if String.eqb kv.1 k then (k, v) else kv) d.

(** The function name the Qt handler passes on: the placeholder when the
    context has none, the arrow when it is empty. *)
Definition qt_funcName (context : QMessageLogContext) : string :=
  match function context with
  | None => "?"
  | Some "" => "()=>{}"
  | Some f => f
  end.



Module Cases.

(** [extra={"cover": {"lineno": object()}}] after the filter: the line
    number is an object that [json] cannot encode. *)
Definition unencodable_record : LogRecord :=
  <["lineno" := PObj 1]> Sample.plain_record.

Definition unencodable_dict : list (string * pyval) :=
  match _JsonRotatingFileHandler._record_to_dict Sample.P unencodable_record with
  | Ok d => d
  | Raise _ => []
  end.

(** What [json.dump] has written when it reaches the object. *)
Definition fragment : string := (json_dump unencodable_dict).1.

(** [logger.error("failed", exc_info=True)] inside an [except] block. *)
Definition failing_site : site :=
  {| s_pathname := "/opt/umi/py_src/run.py"; s_lineno := 20;
     s_funcName := "load"; s_active_exc := Some ValueError;
     s_stack := "Stack (most recent call last):" |}.

Definition failed_record : LogRecord :=
  LogRecord_init Sample.P Posix.boot "Umi-OCR" ERROR failing_site
    (PStr "failed") (PTuple []) (PStr (exn_text ValueError)) PNone.

Definition failed_line : string :=
  match (_LevelFormatter.format Sample.P failed_record).1 with
  | Returns l => l
  | _ => ""
  end.

Definition failed_formatted : LogRecord :=
  (_LevelFormatter.format Sample.P failed_record).2.

Definition failed_dict : list (string * pyval) :=
  match _JsonRotatingFileHandler._record_to_dict Sample.P failed_record with
  | Ok d => d
  | Raise _ => []
  end.

(** A context that has none of its fields. *)
Definition bare_context : QMessageLogContext :=
  {| file := None; function := None; line := None; category := None;
     version := None |}.

End Cases.

(** * Properties *)

(** ** Strings, worlds, and running monadic code *)

Lemma string_app_assoc (a b c : string) : (a +:+ b) +:+ c = a +:+ b +:+ c.
Proof.
  induction a as [|x a IH]; [done|].
  change (String x ((a +:+ b) +:+ c) = String x (a +:+ b +:+ c)). by f_equal.
Qed.

Lemma string_app_nil_r (a : string) : a +:+ "" = a.
Proof.
  induction a as [|x a IH]; [done|].
  change (String x (a +:+ "") = String x a). by f_equal.
Qed.

Lemma world_eq (w1 w2 : world) :
  fs w1 = fs w2 -> stderr w1 = stderr w2 -> loggers w1 = loggers w2 ->
  next_id w1 = next_id w2 -> now w1 = now w2 -> clock w1 = clock w2 ->
  thread w1 = thread w2 -> threadName w1 = threadName w2 ->
  process w1 = process w2 -> processName w1 = processName w2 -> w1 = w2.
Proof. destruct w1, w2; simpl; intros; subst; done. Qed.

Lemma getattr_setattr (r : LogRecord) (k k' : string) (v : pyval) :
  getattr (setattr r k v) k' = if decide (k = k') then Ok v else getattr r k'.
Proof. unfold getattr, setattr. rewrite lookup_insert. by case_decide. Qed.

Lemma getitem_setattr (r : LogRecord) (k k' : string) (v : pyval) :
  getitem (setattr r k v) k' = if decide (k = k') then Ok v else getitem r k'.
Proof. unfold getitem, setattr. rewrite lookup_insert. by case_decide. Qed.

Lemma getattr_Ok (r : LogRecord) (k : string) (v : pyval) :
  getattr r k = Ok v <-> r !! k = Some v.
Proof. unfold getattr. destruct (r !! k); split; congruence. Qed.

Ltac run_stx :=
  unfold mbind, stx_bind, rd, rd_item, wr, modify, lift, settle, mret, stx_ret,
    gets, raise;
  cbn beta iota.

Ltac step :=
  match goal with
  | |- context [outcome_of ?r] =>
      let E := fresh "E" in destruct r eqn:E; cbn [outcome_of]; cbn beta iota
  | |- context [if truthy ?v then _ else _] =>
      let E := fresh "E" in destruct (truthy v) eqn:E; cbn beta iota
  end.

Ltac solve_world Hf :=
  f_equal; apply world_eq; try done;
  unfold put_file, report, content; cbn;
  repeat (rewrite ?Hf, ?lookup_insert_eq; cbn);
  rewrite ?insert_insert_eq, ?string_app_assoc; try done.

(** ** Text and the encoder: what is written holds no line break *)

Lemma count_nl_app (a b : string) :
  count_nl (a +:+ b) = (count_nl a + count_nl b)%nat.
Proof.
  induction a as [|c a IH]; simpl; [done|]. rewrite IH. lia.
Qed.

Lemma count_nl_escape_char (c : ascii) : count_nl (escape_char c) = 0%nat.
Proof.
  destruct c as [[] [] [] [] [] [] [] []]; vm_compute; reflexivity.
Qed.

Lemma count_nl_escape (s : string) : count_nl (escape s) = 0%nat.
Proof.
  induction s as [|c s IH]; simpl; [done|].
  by rewrite count_nl_app, count_nl_escape_char, IH.
Qed.

Lemma count_nl_encode_basestring (s : string) :
  count_nl (encode_basestring s) = 0%nat.
Proof.
  unfold encode_basestring. simpl. by rewrite count_nl_app, count_nl_escape.
Qed.

Lemma count_nl_uint (d : Decimal.uint) :
  count_nl (NilEmpty.string_of_uint d) = 0%nat.
Proof. induction d; simpl; done. Qed.

Lemma count_nl_dec (z : Z) : count_nl (dec z) = 0%nat.
Proof.
  unfold dec, NilZero.string_of_int, NilZero.string_of_uint.
  destruct (Z.to_int z) as [d|d]; destruct d; simpl;
    try done; apply count_nl_uint.
Qed.

Lemma count_nl_zeros (n : nat) : count_nl (zeros n) = 0%nat.
Proof. induction n; simpl; done. Qed.

Lemma count_nl_zfill (w : nat) (s : string) :
  count_nl s = 0%nat -> count_nl (zfill w s) = 0%nat.
Proof. intros H. unfold zfill. by rewrite count_nl_app, count_nl_zeros, H. Qed.

Lemma count_nl_items (l : list (string * bool)) (first : bool) :
  Forall (fun x => count_nl x.1 = 0%nat) l ->
  count_nl (iterencode_items first l).1 = 0%nat.
Proof.
  intros H. revert first. induction H as [|[t ok] l Ht _ IH]; intros first; simpl; [done|].
  simpl in Ht. destruct ok.
  - specialize (IH false). destruct (iterencode_items false l) as [rest ok'].
    cbn [fst] in *. rewrite !count_nl_app, Ht, IH. by destruct first.
  - cbn [fst]. rewrite count_nl_app, Ht. by destruct first.
Qed.

Lemma count_nl_list (l : list (string * bool)) :
  Forall (fun x => count_nl x.1 = 0%nat) l ->
  count_nl (iterencode_list l).1 = 0%nat.
Proof.
  intros H. unfold iterencode_list. destruct l as [|x l]; [done|].
  pose proof (count_nl_items (x :: l) true H) as Hc.
  destruct (iterencode_items true (x :: l)) as [t ok]. cbn [fst] in *.
  change (count_nl (String "[" (t +:+ (if ok then "]" else ""))) = 0%nat).
  simpl. rewrite count_nl_app, Hc. by destruct ok.
Qed.

Lemma count_nl_members (l : list (string * (string * bool))) (first : bool) :
  Forall (fun x => count_nl x.2.1 = 0%nat) l ->
  count_nl (iterencode_members first l).1 = 0%nat.
Proof.
  intros H. revert first.
  induction H as [|[k [t ok]] l Ht _ IH]; intros first; simpl; [done|].
  simpl in Ht. destruct ok.
  - specialize (IH false). destruct (iterencode_members false l) as [rest ok'].
    cbn [fst] in *.
    rewrite !count_nl_app, count_nl_encode_basestring, Ht, IH. by destruct first.
  - cbn [fst].
    rewrite !count_nl_app, count_nl_encode_basestring, Ht. by destruct first.
Qed.

Lemma count_nl_dict (l : list (string * (string * bool))) :
  Forall (fun x => count_nl x.2.1 = 0%nat) l ->
  count_nl (iterencode_dict l).1 = 0%nat.
Proof.
  intros H. unfold iterencode_dict. destruct l as [|x l]; [done|].
  pose proof (count_nl_members (x :: l) true H) as Hc.
  destruct (iterencode_members true (x :: l)) as [t ok]. cbn [fst] in *.
  change (count_nl (String "{" (t +:+ (if ok then "}" else ""))) = 0%nat).
  simpl. rewrite count_nl_app, Hc. by destruct ok.
Qed.

(** Induction on values through the size of what they hold. *)

Lemma pyval_size_elem (l : list pyval) (v : pyval) :
  v ∈ l ->
  (pyval_size v < S (foldr (fun n acc => (n + acc)%nat) 0%nat (map pyval_size l)))%nat.
Proof.
  induction 1 as [v l|v x l _ IH]; simpl in *; lia.
Qed.

Lemma pyval_size_lookup (m : gmap string pyval) (k : string) (v : pyval) :
  m !! k = Some v ->
  (pyval_size v <
     S (map_fold (fun _ n acc => (n + acc)%nat) 0%nat (pyval_size <$> m)))%nat.
Proof.
  intros H.
  rewrite (map_fold_delete_L _ _ k (pyval_size v)).
  - lia.
  - intros. lia.
  - by rewrite lookup_fmap, H.
Qed.

Lemma pyval_nested_ind (Q : pyval -> Prop) :
  Q PNone -> (forall b, Q (PBool b)) -> (forall z, Q (PInt z)) ->
  (forall s, Q (PStr s)) -> (forall t, Q (PObj t)) ->
  (forall l, Forall Q l -> Q (PTuple l)) ->
  (forall l, Forall Q l -> Q (PList l)) ->
  (forall m, map_Forall (fun _ => Q) m -> Q (PDict m)) ->
  forall v, Q v.
Proof.
  intros HN HB HI HS HO HT HL HD v.
  remember (pyval_size v) as n eqn:Hn.
  revert v Hn. induction n as [n IH] using lt_wf_ind. intros v ->.
  destruct v as [|b|z|s|l|l|m|t]; auto.
  - apply HT, Forall_forall. intros x Hx.
    eapply IH; [|reflexivity]. by apply pyval_size_elem.
  - apply HL, Forall_forall. intros x Hx.
    eapply IH; [|reflexivity]. by apply pyval_size_elem.
  - apply HD. intros k x Hk.
    eapply IH; [|reflexivity]. by eapply pyval_size_lookup.
Qed.

Lemma count_nl_iterencode (v : pyval) : count_nl (iterencode v).1 = 0%nat.
Proof.
  induction v as [ |b|z|s|t|l IH|l IH|m IH] using pyval_nested_ind; simpl.
  - done.
  - by destruct b.
  - apply count_nl_dec.
  - apply count_nl_encode_basestring.
  - done.
  - apply count_nl_list, Forall_map. eapply Forall_impl; [exact IH|done].
  - apply count_nl_list, Forall_map. eapply Forall_impl; [exact IH|done].
  - apply count_nl_dict, Forall_forall. intros [k x] Hx.
    apply elem_of_map_to_list in Hx. rewrite lookup_fmap in Hx.
    destruct (m !! k) as [v|] eqn:Hk; simplify_eq/=.
    by apply (IH k v).
Qed.

Lemma count_nl_json_dump (d : list (string * pyval)) :
  count_nl (json_dump d).1 = 0%nat.
Proof.
  unfold json_dump. apply count_nl_dict, Forall_map, Forall_forall.
  intros [k v] _. simpl. apply count_nl_iterencode.
Qed.

(** ** The override filter *)

Lemma cover_loop_lookup (record : LogRecord) (m : gmap string pyval) (k : string) :
  map_fold _CoverFilter.cover_step record m !! k =
  match record !! k with
  | Some old => Some (default old (m !! k))
  | None => None
  end.
Proof.
  revert k.
  apply (map_fold_weak_ind (fun (r : LogRecord) (m' : gmap string pyval) =>
    forall k, r !! k =
      match record !! k with
      | Some old => Some (default old (m' !! k))
      | None => None
      end)).
  - intros k. rewrite lookup_empty. by destruct (record !! k).
  - intros i x m' r Hi IH k.
    unfold _CoverFilter.cover_step, hasattr, setattr.
    destruct (decide (i = k)) as [->|Hne].
    + specialize (IH k). rewrite Hi in IH. rewrite lookup_insert_eq.
      destruct (record !! k) as [old|] eqn:Hk; simpl in *.
      * rewrite bool_decide_eq_true_2 by (rewrite IH; eauto).
        by rewrite lookup_insert_eq.
      * rewrite bool_decide_eq_false_2 by (rewrite IH; by intros [? ?]).
        done.
    + rewrite (lookup_insert_ne m') by done.
      case_bool_decide; [rewrite lookup_insert_ne by done|]; apply IH.
Qed.

Lemma apply_cover_dict (record : LogRecord) (m : gmap string pyval) :
  record !! "cover" = Some (PDict m) ->
  _CoverFilter.apply_cover record = Ok (map_fold _CoverFilter.cover_step record m).
Proof. intros H. unfold _CoverFilter.apply_cover. by rewrite H. Qed.

Lemma apply_cover_absent (record : LogRecord) :
  record !! "cover" = None -> _CoverFilter.apply_cover record = Ok record.
Proof.
  intros H. unfold _CoverFilter.apply_cover. rewrite H. simpl.
  by rewrite map_fold_empty.
Qed.

Lemma filter_ok (lg : logger_call) (record record' : LogRecord) (w : world) :
  _CoverFilter.apply_cover record = Ok record' ->
  _CoverFilter.filter lg record w = (Returns (true, record'), w).
Proof.
  intros H. unfold _CoverFilter.filter, try_except, lift, settle, mbind, stx_bind.
  by rewrite H.
Qed.



(** ** The console formatter *)

Lemma getattr_setattr_ne (r : LogRecord) (k k' : string) (v : pyval) :
  k <> k' -> getattr (setattr r k v) k' = getattr r k'.
Proof. intros. rewrite getattr_setattr. by case_decide. Qed.
Lemma getattr_setattr_eq (r : LogRecord) (k : string) (v : pyval) :
  getattr (setattr r k v) k = Ok v.
Proof. rewrite getattr_setattr. by case_decide. Qed.
Lemma getitem_setattr_ne (r : LogRecord) (k k' : string) (v : pyval) :
  k <> k' -> getitem (setattr r k v) k' = getitem r k'.
Proof. intros. rewrite getitem_setattr. by case_decide. Qed.
Lemma getitem_setattr_eq (r : LogRecord) (k : string) (v : pyval) :
  getitem (setattr r k v) k = Ok v.
Proof. rewrite getitem_setattr. by case_decide. Qed.
Lemma getitem_Ok (r : LogRecord) (k : string) (v : pyval) :
  getitem r k = Ok v <-> r !! k = Some v.
Proof. unfold getitem. destruct (r !! k); split; congruence. Qed.

Lemma getMessage_ext (P : Platform) (r r' : LogRecord) :
  r' !! "msg" = r !! "msg" -> r' !! "args" = r !! "args" ->
  getMessage P r' = getMessage P r.
Proof. intros H1 H2. unfold getMessage, getattr. by rewrite H1, H2. Qed.

Lemma setattr_same (r : LogRecord) (k : string) (v : pyval) :
  r !! k = Some v -> setattr r k v = r.
Proof. apply insert_id. Qed.

Ltac attrs :=
  repeat first
    [ rewrite getattr_setattr_eq | rewrite getitem_setattr_eq
    | rewrite getattr_setattr_ne by done | rewrite getitem_setattr_ne by done ].

Ltac next H :=
  match goal with
  | |- context [outcome_of ?r] =>
      destruct r eqn:H; cbn [outcome_of]; cbn beta iota;
      [|intros; discriminate]
  end.

Lemma Formatter_format_inv (P : Platform) (r r' : LogRecord) (line : string) :
  _LevelFormatter.Formatter_format P r = (Returns line, r') ->
  exists message created dt sym fn ei et0 si,
    getMessage P r = Ok message /\
    r !! "created" = Some created /\
    fromtimestamp P created = Ok dt /\
    r !! "levelsymbol" = Some sym /\
    r !! "funcName" = Some fn /\
    r !! "exc_info" = Some ei /\
    r !! "exc_text" = Some et0 /\
    r !! "stack_info" = Some si /\
    r' = setattr (setattr (setattr r "message" (PStr message))
                    "asctime" (PStr (strftime_clock dt)))
           "exc_text" (cached_exc_text P ei et0) /\
    line = console_line P (strftime_clock dt) sym fn message
             (cached_exc_text P ei et0) si.
Proof.
  unfold _LevelFormatter.Formatter_format. run_stx.
  next Hm. attrs. next Hc. next Hdt. attrs. cbn [outcome_of]; cbn beta iota.
  next Hsym. next Hfn. cbn [outcome_of]; cbn beta iota.
  next Hei.
  apply getattr_Ok in Hc, Hei. apply getitem_Ok in Hsym, Hfn.
  destruct (truthy a4) eqn:Tei; cbn beta iota.
  - attrs. next Het. apply getattr_Ok in Het.
    destruct (truthy a5) eqn:Tet; cbn beta iota.
    + attrs. rewrite (proj2 (getattr_Ok _ _ _) Het). cbn [outcome_of]; cbn beta iota.
      next Hsi. apply getattr_Ok in Hsi.
      intros [= <- <-]. exists a, a0, a1, a2, a3, a4, a5, a6.
      unfold cached_exc_text, console_line. rewrite Tei, Tet. cbn [andb negb].
      repeat split; try done; try (cbn [py_str]; by rewrite ?Tei, ?Tet).
      symmetry. apply setattr_same. unfold setattr. by rewrite !lookup_insert_ne.
    + attrs. cbn [outcome_of]; cbn beta iota.
      next Hsi. apply getattr_Ok in Hsi.
      intros [= <- <-]. exists a, a0, a1, a2, a3, a4, a5, a6.
      unfold cached_exc_text, console_line. rewrite Tei, Tet. cbn [andb negb].
      repeat split; try done; try (cbn [py_str]; by rewrite ?Tei, ?Tet).
  - attrs. next Het. next Hsi. apply getattr_Ok in Het, Hsi.
    intros [= <- <-]. exists a, a0, a1, a2, a3, a4, a5, a6.
    unfold cached_exc_text, console_line. rewrite Tei. cbn [andb negb].
    repeat split; try done; try (cbn [py_str]; by rewrite ?Tei, ?Tet).
    symmetry. apply setattr_same. unfold setattr. by rewrite !lookup_insert_ne.
Qed.

Lemma Formatter_format_intro (P : Platform) (r : LogRecord) (message : string)
    (created : pyval) (dt : datetime) (sym fn ei et0 si : pyval) :
  getMessage P r = Ok message ->
  r !! "created" = Some created ->
  fromtimestamp P created = Ok dt ->
  r !! "levelsymbol" = Some sym ->
  r !! "funcName" = Some fn ->
  r !! "exc_info" = Some ei ->
  r !! "exc_text" = Some et0 ->
  r !! "stack_info" = Some si ->
  _LevelFormatter.Formatter_format P r
  = (Returns (console_line P (strftime_clock dt) sym fn message
                (cached_exc_text P ei et0) si),
     setattr (setattr (setattr r "message" (PStr message))
                "asctime" (PStr (strftime_clock dt)))
       "exc_text" (cached_exc_text P ei et0)).
Proof.
  intros Hm Hc Hdt Hsym Hfn Hei Het Hsi.
  apply getattr_Ok in Hc, Hei, Het, Hsi. apply getitem_Ok in Hsym, Hfn.
  unfold _LevelFormatter.Formatter_format. run_stx.
  rewrite Hm. cbn [outcome_of]; cbn beta iota. attrs.
  rewrite Hc. cbn [outcome_of]; cbn beta iota.
  rewrite Hdt. cbn [outcome_of]; cbn beta iota. attrs.
  rewrite Hsym, Hfn, Hei. cbn [outcome_of]; cbn beta iota.
  unfold cached_exc_text, console_line.
  destruct (truthy ei) eqn:Tei; cbn beta iota.
  - attrs. rewrite Het. cbn [outcome_of]; cbn beta iota.
    destruct (truthy et0) eqn:Tet; cbn beta iota; cbn [andb negb].
    + attrs. rewrite Het, Hsi. cbn [outcome_of]; cbn beta iota. rewrite Tet.
      cbn [py_str]. f_equal.
      symmetry. apply setattr_same. unfold setattr.
      rewrite !lookup_insert_ne by done. by apply getattr_Ok.
    + attrs. rewrite Hsi. cbn [outcome_of]; cbn beta iota.
      cbn [py_str truthy]. reflexivity.
  - attrs. rewrite Het, Hsi. cbn [outcome_of]; cbn beta iota. cbn [andb].
    cbn [py_str]. f_equal.
    symmetry. apply setattr_same. unfold setattr.
    rewrite !lookup_insert_ne by done. by apply getattr_Ok.
Qed.

Lemma cached_exc_text_idem (P : Platform) (ei et0 : pyval) :
  cached_exc_text P ei (cached_exc_text P ei et0) = cached_exc_text P ei et0.
Proof.
  unfold cached_exc_text.
  destruct (truthy ei); cbn [andb]; [|done].
  destruct (truthy et0) eqn:Tet; cbn [negb].
  - by rewrite Tet.
  - by destruct (negb (truthy (PStr (py_str P ei)))).
Qed.

Lemma Formatter_format_idem (P : Platform) (r r' : LogRecord) (line : string) :
  _LevelFormatter.Formatter_format P r = (Returns line, r') ->
  _LevelFormatter.Formatter_format P r' = (Returns line, r').
Proof.
  intros H.
  destruct (Formatter_format_inv P r r' line H)
    as (message & created & dt & sym & fn & ei & et0 & si &
        Hm & Hc & Hdt & Hsym & Hfn & Hei & Het & Hsi & -> & ->).
  set (r1 := setattr _ "exc_text" _).
  assert (Hl : forall k, k <> "message" -> k <> "asctime" -> k <> "exc_text" ->
                r1 !! k = r !! k).
  { intros k ? ? ?. unfold r1, setattr. by rewrite !lookup_insert_ne. }
  rewrite (Formatter_format_intro P r1 message created dt sym fn ei
             (cached_exc_text P ei et0) si).
  - rewrite cached_exc_text_idem. f_equal.
    rewrite (setattr_same r1 "message" (PStr message)).
    2:{ unfold r1, setattr. rewrite !lookup_insert_ne by done. by rewrite lookup_insert_eq. }
    rewrite (setattr_same r1 "asctime").
    2:{ unfold r1, setattr. rewrite lookup_insert_ne by done. by rewrite lookup_insert_eq. }
    apply setattr_same. unfold r1, setattr. by rewrite lookup_insert_eq.
  - rewrite <- Hm. apply getMessage_ext; by apply Hl.
  - by rewrite Hl.
  - done.
  - by rewrite Hl.
  - by rewrite Hl.
  - by rewrite Hl.
  - unfold r1, setattr. by rewrite lookup_insert_eq.
  - by rewrite Hl.
Qed.

Lemma Formatter_format_frame (P : Platform) (r : LogRecord) (k : string) :
  k <> "message" -> k <> "asctime" -> k <> "exc_text" ->
  (_LevelFormatter.Formatter_format P r).2 !! k = r !! k.
Proof.
  intros H1 H2 H3. unfold _LevelFormatter.Formatter_format. run_stx.
  repeat step; cbn [snd]; unfold setattr; rewrite ?lookup_insert_ne by done; done.
Qed.

Lemma format_frame (P : Platform) (r : LogRecord) (k : string) :
  k <> "levelsymbol" -> k <> "message" -> k <> "asctime" -> k <> "exc_text" ->
  (_LevelFormatter.format P r).2 !! k = r !! k.
Proof.
  intros H0 H1 H2 H3. unfold _LevelFormatter.format. run_stx.
  repeat step; cbn [snd]; try done.
  pose proof (Formatter_format_frame P (setattr r "levelsymbol" a0) k H1 H2 H3) as HF.
  destruct (_LevelFormatter.Formatter_format P (setattr r "levelsymbol" a0)) as [o s'].
  cbn [snd] in *. rewrite HF. unfold setattr. by rewrite lookup_insert_ne.
Qed.

Lemma Formatter_format_line (P : Platform) (r r' : LogRecord) (line : string) (sym : pyval) :
  _LevelFormatter.Formatter_format P r = (Returns line, r') ->
  r !! "levelsymbol" = Some sym ->
  exists clock rest, line = clock +:+ " " +:+ py_str P sym +:+ " " +:+ rest.
Proof.
  intros H Hsym.
  destruct (Formatter_format_inv P r r' line H)
    as (message & created & dt & sym' & fn & ei & et0 & si &
        _ & _ & _ & Hsym' & _ & _ & _ & _ & _ & ->).
  assert (sym' = sym) as -> by congruence.
  unfold console_line, with_nl. exists (strftime_clock dt).
  repeat case_match; rewrite ?string_app_assoc; eauto.
Qed.

Lemma get_symbol_other (name : string) :
  name <> "DEBUG" -> name <> "INFO" -> name <> "WARNING" ->
  name <> "ERROR" -> name <> "CRITICAL" ->
  _LevelFormatter.get_symbol (PStr name) = Ok (PStr name).
Proof.
  intros. unfold _LevelFormatter.get_symbol, _LevelFormatter.LEVEL_SYMBOLS. simpl.
  rewrite !lookup_insert_ne by done. by rewrite lookup_empty.
Qed.

Lemma get_symbol_str (name : string) :
  _LevelFormatter.get_symbol (PStr name) =
  Ok (PStr (default name (_LevelFormatter.LEVEL_SYMBOLS !! name))).
Proof.
  unfold _LevelFormatter.get_symbol.
  by destruct (_LevelFormatter.LEVEL_SYMBOLS !! name).
Qed.

(** C8.  The table gives DEBUG, INFO, WARNING, ERROR and CRITICAL their
    symbols; any other level name is its own symbol; and the symbol is
    what the formatter stores in the record and renders after the time. *)
Theorem level_symbols_and_fallback (P : Platform) :
  _LevelFormatter.get_symbol (PStr "DEBUG") = Ok (PStr "√") /\
  _LevelFormatter.get_symbol (PStr "INFO") = Ok (PStr "i") /\
  _LevelFormatter.get_symbol (PStr "WARNING") = Ok (PStr "?") /\
  _LevelFormatter.get_symbol (PStr "ERROR") = Ok (PStr "×") /\
  _LevelFormatter.get_symbol (PStr "CRITICAL") = Ok (PStr "!") /\
  (forall name,
     name <> "DEBUG" -> name <> "INFO" -> name <> "WARNING" ->
     name <> "ERROR" -> name <> "CRITICAL" ->
     _LevelFormatter.get_symbol (PStr name) = Ok (PStr name)) /\
  (forall record name line record',
     record !! "levelname" = Some (PStr name) ->
     _LevelFormatter.format P record = (Returns line, record') ->
     exists sym,
       _LevelFormatter.get_symbol (PStr name) = Ok (PStr sym) /\
       record' !! "levelsymbol" = Some (PStr sym) /\
       exists clock rest, line = clock +:+ " " +:+ sym +:+ " " +:+ rest).
Proof.
  repeat split; try reflexivity.
  - apply get_symbol_other.
  - intros record name line record' Hname.
    set (sym := default name (_LevelFormatter.LEVEL_SYMBOLS !! name)).
    unfold _LevelFormatter.format. run_stx.
    unfold getattr at 1. rewrite Hname. cbn [outcome_of]. cbn beta iota.
    rewrite get_symbol_str. cbn [outcome_of]. cbn beta iota. fold sym.
    intros H. exists sym. split; [done|].
    pose proof (Formatter_format_frame P (setattr record "levelsymbol" (PStr sym))
                  "levelsymbol") as HF.
    rewrite H in HF. cbn [snd] in HF. split.
    + rewrite HF by done. unfold setattr. by rewrite lookup_insert_eq.
    + eapply (Formatter_format_line P _ _ _ (PStr sym)) in H; [exact H|].
      unfold setattr. by rewrite lookup_insert_eq.
Qed.

Example format_plain_record :
  (_LevelFormatter.format Sample.P Sample.plain_record).1
  = Returns "08:30:15 i main | hello".
Proof. vm_compute. reflexivity. Qed.

Example format_unknown_level :
  (_LevelFormatter.format Sample.P
     (<["levelname" := PStr "TRACE"]> Sample.plain_record)).1
  = Returns "08:30:15 TRACE main | hello".
Proof. vm_compute. reflexivity. Qed.

(** ** The JSON handler *)

Lemma emit_cases (P : Platform) (self : RotatingFileHandler)
    (record : LogRecord) (w : world) :
  _JsonRotatingFileHandler.emit P self record w
  = (Returns tt, emit_effect P self record w).
Proof.
  unfold _JsonRotatingFileHandler.emit, emit_effect, try_except, handleError,
    _JsonRotatingFileHandler.read_local, json_dump_to, open_append, write.
  run_stx.
  destruct (_JsonRotatingFileHandler._record_to_dict P record) as [d|e]; cbn.
  - destruct (fs w !! baseFilename self) as [[old|]|] eqn:Hf; cbn.
    + destruct (json_dump d) as [text [|]]; cbn; solve_world Hf.
    + done.
    + destruct (json_dump d) as [text [|]]; cbn; solve_world Hf.
  - destruct (fs w !! baseFilename self) as [[old|]|] eqn:Hf; cbn.
    + solve_world Hf. by rewrite insert_id.
    + done.
    + solve_world Hf.
Qed.



Lemma record_to_dict_inv (P : Platform) (record : LogRecord) (d : list (string * pyval)) :
  _JsonRotatingFileHandler._record_to_dict P record = Ok d ->
  exists dt message,
    fromtimestamp P (attr record "created") = Ok dt /\
    getMessage P record = Ok message /\
    d = [ ("time", PStr (strftime_full dt));
          ("level", attr record "levelname");
          ("message", PStr message);
          ("filename", attr record "filename");
          ("lineno", attr record "lineno");
          ("module", attr record "module");
          ("funcName", attr record "funcName");
          ("exc_text", attr record "exc_text");
          ("stack_info", attr record "stack_info");
          ("thread", attr record "thread");
          ("threadName", attr record "threadName");
          ("process", attr record "process");
          ("processName", attr record "processName");
          ("name", attr record "name") ].
Proof.
  unfold _JsonRotatingFileHandler._record_to_dict, attr, getattr.
  unfold mbind, result_bind.
  repeat (case_match; try discriminate); simplify_eq/=.
  intros [= <-]. eauto.
Qed.



Example plain_record_line :
  Sample.plain_text =
  "{" +:+ encode_basestring "time" +:+ ": " +:+ encode_basestring "2024-05-17 08:30:15.000000" +:+ ", " +:+
  encode_basestring "level" +:+ ": " +:+ encode_basestring "INFO" +:+ ", " +:+
  encode_basestring "message" +:+ ": " +:+ encode_basestring "hello" +:+ ", " +:+
  encode_basestring "filename" +:+ ": " +:+ encode_basestring "run.py" +:+ ", " +:+
  encode_basestring "lineno" +:+ ": 12, " +:+
  encode_basestring "module" +:+ ": " +:+ encode_basestring "run" +:+ ", " +:+
  encode_basestring "funcName" +:+ ": " +:+ encode_basestring "main" +:+ ", " +:+
  encode_basestring "exc_text" +:+ ": null, " +:+
  encode_basestring "stack_info" +:+ ": null, " +:+
  encode_basestring "thread" +:+ ": 140, " +:+
  encode_basestring "threadName" +:+ ": " +:+ encode_basestring "MainThread" +:+ ", " +:+
  encode_basestring "process" +:+ ": 4242, " +:+
  encode_basestring "processName" +:+ ": " +:+ encode_basestring "MainProcess" +:+ ", " +:+
  encode_basestring "name" +:+ ": " +:+ encode_basestring "Umi-OCR" +:+ "}".
Proof. vm_compute. reflexivity. Qed.



(** C1 (the code departs from it).  [emit] never reads [maxBytes] or
    [backupCount], and whatever the log file already holds, be it ten
    mebibytes or more, [emit] appends to that same file: no file is
    renamed, created or removed. *)
Theorem emit_never_rolls_over (P : Platform) (self : RotatingFileHandler)
    (record : LogRecord) (w : world) (old : string) :
  (forall limit count,
     _JsonRotatingFileHandler.emit P
       {| baseFilename := baseFilename self; mode := mode self;
          maxBytes := limit; backupCount := count;
          encoding := encoding self; delay := delay self |} record w
     = _JsonRotatingFileHandler.emit P self record w) /\
  exists text,
    fs (_JsonRotatingFileHandler.emit P self record
          (put_file (baseFilename self) old w)).2
    = <[baseFilename self := File (old +:+ text)]> (fs w).
Proof.
  split; [reflexivity|].
  rewrite emit_cases. unfold emit_effect. cbn [snd].
  assert (Hf : fs (put_file (baseFilename self) old w) !! baseFilename self
               = Some (File old)) by (cbn; by rewrite lookup_insert_eq).
  assert (Hc : content (put_file (baseFilename self) old w) (baseFilename self) = old)
    by (unfold content; by rewrite Hf).
  rewrite Hf, Hc.
  destruct (_JsonRotatingFileHandler._record_to_dict P record) as [d|e].
  - destruct (json_dump d) as [text [|]].
    + exists (text +:+ NL). cbn. by rewrite insert_insert_eq.
    + exists text. cbn. by rewrite insert_insert_eq.
  - exists "". cbn. by rewrite insert_insert_eq, string_app_nil_r.
Qed.

(** ** The text writer *)

Lemma add_lines_blocks (l : list pyval) (texts : list string) (acc : string) :
  Forall2 block_with_text l texts ->
  OutputTxt.add_lines acc l = Ok (acc +:+ lines_of texts).
Proof.
  intros H. revert acc.
  induction H as [|r s l texts (m & -> & Hm) _ IH]; intros acc; simpl.
  - by rewrite string_app_nil_r.
  - rewrite Hm. simpl. rewrite IH. by rewrite !string_app_assoc.
Qed.

(** C9.  [print] leaves the output file untouched for a result with code
    101 when blank results are ignored; for a result with code 100 whose
    data is a list of text blocks it appends the heading of the image,
    every fragment followed by a line break, and one empty line. *)
Theorem print_blank_and_text (P : Platform) (self : OutputTxt.t)
    (res : OutputTxt.res) (w : world) :
  (OutputTxt.code res = 101 -> OutputTxt.ingoreBlank self = true ->
   OutputTxt.print P self res w = (Returns tt, w)) /\
  (forall l texts,
     OutputTxt.code res = 100 ->
     OutputTxt.data res = PList l ->
     Forall2 block_with_text l texts ->
     fs w !! OutputTxt.outputPath self <> Some Dir ->
     OutputTxt.print P self res w
     = (Returns tt,
        put_file (OutputTxt.outputPath self)
          (content w (OutputTxt.outputPath self) +:+
           "≦ " +:+ OutputTxt.res_fileName res +:+ " ≧" +:+ NL +:+
           lines_of texts +:+ NL) w)).
Proof.
  split.
  - intros Hc Hb. unfold OutputTxt.print. by rewrite Hc, Hb.
  - intros l texts Hc Hd Hl Hf. unfold OutputTxt.print. rewrite Hc, Hd. cbn.
    unfold mbind at 2. unfold result_bind.
    rewrite (add_lines_blocks l texts _ Hl).
    unfold open_append, write. run_stx. cbn.
    destruct (fs w !! OutputTxt.outputPath self) as [[old|]|] eqn:Hp; [|done|].
    + cbn. solve_world Hp.
    + cbn. solve_world Hp.
Qed.

Example print_two_fragments :
  content
    (OutputTxt.print Sample.P Sample.txt
       {| OutputTxt.code := 100; OutputTxt.res_fileName := "a.png";
          OutputTxt.data := PList [Sample.text_block "first"; Sample.text_block "second"] |}
       (put_file "/out/result.txt" "" Posix.boot)).2
    "/out/result.txt"
  = "≦ a.png ≧" +:+ NL +:+ "first" +:+ NL +:+ "second" +:+ NL +:+ NL.
Proof. vm_compute. reflexivity. Qed.

Example print_blank_ignored :
  OutputTxt.print Sample.P Sample.txt
    {| OutputTxt.code := 101; OutputTxt.res_fileName := "a.png";
       OutputTxt.data := PStr "" |} Posix.boot
  = (Returns tt, Posix.boot).
Proof. reflexivity. Qed.

(** ** Handlers at work *)

Lemma Formatter_format_settles (P : Platform) (r : LogRecord) :
  (_LevelFormatter.Formatter_format P r).1 <> Diverged.
Proof.
  unfold _LevelFormatter.Formatter_format. run_stx.
  repeat step; cbn [fst]; done.
Qed.

Lemma format_settles (P : Platform) (r : LogRecord) :
  (_LevelFormatter.format P r).1 <> Diverged.
Proof.
  unfold _LevelFormatter.format. run_stx.
  repeat step; cbn [fst]; try done.
  pose proof (Formatter_format_settles P (setattr r "levelsymbol" a0)) as H.
  by destruct (_LevelFormatter.Formatter_format P (setattr r "levelsymbol" a0)).
Qed.

(** What a stream handler leaves on standard error for a record. *)
Lemma StreamHandler_emit_cases (P : Platform) (record : LogRecord) (w : world) :
  StreamHandler_emit P record w =
  (Returns (_LevelFormatter.format P record).2,
   match (_LevelFormatter.format P record).1 with
   | Returns msg => set_stderr (fun out => (out ++ [Written (msg +:+ NL)])%list) w
   | Raises e => report e w
   | Diverged => w
   end).
Proof.
  unfold StreamHandler_emit.
  pose proof (format_settles P record) as H.
  destruct (_LevelFormatter.format P record) as [[msg|e|] record']; cbn in *; done.
Qed.

Lemma Handler_handle_returns (P : Platform) (h : handler) (record : LogRecord) (w : world) :
  exists record' w',
    Handler_handle P h record w = (Returns record', w') /\
    record' !! "levelno" = record !! "levelno".
Proof.
  unfold Handler_handle. destruct (hkind h) as [|cfg].
  - rewrite StreamHandler_emit_cases. eexists _, _. split; [done|].
    by apply format_frame.
  - run_stx. rewrite emit_cases. eauto.
Qed.

Lemma callHandlers_returns (P : Platform) (hs : list handler) (record : LogRecord)
    (w : world) (n : Z) :
  record !! "levelno" = Some (PInt n) ->
  exists w', callHandlers P hs record w = (Returns tt, w').
Proof.
  revert record w. induction hs as [|h hs IH]; intros record w Hn.
  - by eexists.
  - cbn [callHandlers]. run_stx. unfold getattr. rewrite Hn. cbn.
    destruct (hlevel h <=? n).
    + destruct (Handler_handle_returns P h record w) as (r' & w' & -> & Hl).
      apply IH. by rewrite Hl.
    + by apply IH.
Qed.

(** ** The filter chain *)

Lemma cover_loop_idem (record : LogRecord) (m : gmap string pyval) :
  map_fold _CoverFilter.cover_step (map_fold _CoverFilter.cover_step record m) m
  = map_fold _CoverFilter.cover_step record m.
Proof.
  apply map_eq. intros k. rewrite !cover_loop_lookup.
  destruct (record !! k) as [old|]; [|done]. by destruct (m !! k).
Qed.

Lemma Filterer_filter_absent (lg : logger_call) (filters : list positive)
    (record : LogRecord) (w : world) :
  record !! "cover" = None ->
  Filterer_filter (_CoverFilter.filter lg) filters record w = (Returns (true, record), w).
Proof.
  intros H. induction filters as [|f filters IH]; [done|].
  cbn [Filterer_filter]. run_stx.
  rewrite (filter_ok lg record record w) by by apply apply_cover_absent.
  exact IH.
Qed.

Lemma Filterer_filter_cover (lg : logger_call) (filters : list positive)
    (record : LogRecord) (m : gmap string pyval) (w : world) :
  record !! "cover" = Some (PDict m) ->
  m !! "cover" = None ->
  Filterer_filter (_CoverFilter.filter lg) filters record w
  = (Returns (true,
       match filters with
       | [] => record
       | _ => map_fold _CoverFilter.cover_step record m
       end), w).
Proof.
  intros Hc Hm. revert record Hc.
  induction filters as [|f filters IH]; intros record Hc; [done|].
  cbn [Filterer_filter]. run_stx.
  rewrite (filter_ok lg record _ w (apply_cover_dict record m Hc)).
  rewrite IH.
  - destruct filters; [done|]. by rewrite cover_loop_idem.
  - by rewrite cover_loop_lookup, Hc, Hm.
Qed.

Lemma Filterer_filter_fails (lg : logger_call) (f : positive) (filters : list positive)
    (record : LogRecord) (e : exn) (w : world) :
  _CoverFilter.apply_cover record = Raise e ->
  Filterer_filter (_CoverFilter.filter lg) (f :: filters) record w
  = (let '(o, w') :=
       lg ERROR (_CoverFilter.except_site e) (PStr "日志过滤错误") true true None w in
     (match o with
      | Returns _ => Returns (false, record)
      | Raises x => Raises x
      | Diverged => Diverged
      end, w')).
Proof.
  intros H. cbn [Filterer_filter]. unfold _CoverFilter.filter, try_except. run_stx.
  rewrite H. cbn.
  destruct (lg ERROR _ _ true true None w) as [[[]|x|] w']; done.
Qed.

(** The record of the filter's own error message. *)
Lemma error_record_lookup (P : Platform) (w : world) (e : exn) :
  filter_error_record P w e !! "cover" = None /\
  filter_error_record P w e !! "levelno" = Some (PInt ERROR) /\
  filter_error_record P w e !! "levelname" = Some (PStr "ERROR") /\
  filter_error_record P w e !! "exc_info" = Some (PStr (exn_text e)) /\
  filter_error_record P w e !! "stack_info"
    = Some (PStr "Stack (most recent call last):").
Proof. repeat split; reflexivity. Qed.

Lemma logger_error_in_filter (P : Platform) (fuel : nat) (w : world) (e : exn)
    (lg : Logger) :
  loggers w !! logger_name = Some lg ->
  llevel lg <= ERROR ->
  logger P (S fuel) ERROR (_CoverFilter.except_site e) (PStr "日志过滤错误")
    true true None w
  = callHandlers P (lhandlers lg) (filter_error_record P w e) w.
Proof.
  intros Hlg Hlevel. unfold logger, Logger_log, the_logger. run_stx.
  rewrite Hlg. cbn beta iota.
  rewrite (proj2 (Z.leb_le _ _) Hlevel).
  unfold makeRecord. run_stx. cbn beta iota.
  cbn [Logger_handle]. unfold the_logger. run_stx. rewrite Hlg. cbn beta iota.
  fold (filter_error_record P w e).
  rewrite Filterer_filter_absent by apply error_record_lookup.
  cbn beta iota. reflexivity.
Qed.

(** C6.  When the body of the override filter raises on a record, the
    filter does not raise: it returns false with the record as it was, and
    all that happens besides is that the record of one ERROR message,
    with the exception and the stack attached and without a [cover]
    attribute, is handed to the handlers of the global logger.  That
    record passes every override filter without any further logging, so
    the failure does not recur, and handling the failing record does
    nothing else: it alone is suppressed. *)
Theorem cover_filter_failure_logged_once (P : Platform) (fuel : nat)
    (record : LogRecord) (w : world) (e : exn) (lg : Logger) :
  _CoverFilter.apply_cover record = Raise e ->
  loggers w !! logger_name = Some lg ->
  llevel lg <= ERROR ->
  filter_error_record P w e !! "cover" = None /\
  filter_error_record P w e !! "levelname" = Some (PStr "ERROR") /\
  filter_error_record P w e !! "exc_info" = Some (PStr (exn_text e)) /\
  filter_error_record P w e !! "stack_info"
    = Some (PStr "Stack (most recent call last):") /\
  (forall lgc w0,
     Filterer_filter (_CoverFilter.filter lgc) (lfilters lg)
       (filter_error_record P w e) w0
     = (Returns (true, filter_error_record P w e), w0)) /\
  exists w',
    callHandlers P (lhandlers lg) (filter_error_record P w e) w = (Returns tt, w') /\
    _CoverFilter.filter (logger P (S fuel)) record w = (Returns (false, record), w') /\
    (forall name lg',
       loggers w !! name = Some lg' -> lfilters lg' <> [] ->
       Logger_handle P (S (S fuel)) name record w = (Returns tt, w')).
Proof.
  intros He Hlg Hlevel.
  destruct (error_record_lookup P w e) as (Hc & Hno & Hname & Hexc & Hstack).
  repeat (split; [done|]).
  split; [intros; by apply Filterer_filter_absent|].
  destruct (callHandlers_returns P (lhandlers lg) (filter_error_record P w e) w
              ERROR Hno) as [w' Hw'].
  exists w'. split; [done|].
  assert (Hone : forall f filters,
    Filterer_filter (_CoverFilter.filter (logger P (S fuel))) (f :: filters) record w
    = (Returns (false, record), w')).
  { intros f filters. rewrite (Filterer_filter_fails _ f filters record e w He).
    by rewrite (logger_error_in_filter P fuel w e lg Hlg Hlevel), Hw'. }
  split.
  - specialize (Hone 1%positive []). cbn [Filterer_filter] in Hone.
    revert Hone. run_stx.
    by destruct (_CoverFilter.filter (logger P (S fuel)) record w)
      as [[[[] r]|x|] w1]; intros [= <- <-] || intros [=].
  - intros name lg' Hlg' Hf. cbn [Logger_handle]. unfold the_logger. run_stx.
    rewrite Hlg'. cbn beta iota.
    destruct (lfilters lg') as [|f filters]; [done|].
    fold (logger P (S fuel)). by rewrite Hone.
Qed.

Lemma cover_filter_failure_logged_once_witness :
  let w := Sample.imported in
  let lg := registered Sample.imported logger_name in
  let e := AttributeError in
  filter_error_record Sample.P w e !! "cover" = None /\
  filter_error_record Sample.P w e !! "levelname" = Some (PStr "ERROR") /\
  filter_error_record Sample.P w e !! "exc_info" = Some (PStr (exn_text e)) /\
  filter_error_record Sample.P w e !! "stack_info"
    = Some (PStr "Stack (most recent call last):") /\
  (forall lgc w0,
     Filterer_filter (_CoverFilter.filter lgc) (lfilters lg)
       (filter_error_record Sample.P w e) w0
     = (Returns (true, filter_error_record Sample.P w e), w0)) /\
  exists w',
    callHandlers Sample.P (lhandlers lg) (filter_error_record Sample.P w e) w
      = (Returns tt, w') /\
    _CoverFilter.filter (logger Sample.P 1) Sample.bad_cover_record w
      = (Returns (false, Sample.bad_cover_record), w') /\
    (forall name lg',
       loggers w !! name = Some lg' -> lfilters lg' <> [] ->
       Logger_handle Sample.P 2 name Sample.bad_cover_record w = (Returns tt, w')).
Proof.
  apply (cover_filter_failure_logged_once Sample.P 0 Sample.bad_cover_record
           Sample.imported AttributeError (registered Sample.imported logger_name)).
  - vm_compute. reflexivity.
  - vm_compute. reflexivity.
  - vm_compute. discriminate.
Defined.

Example bad_cover_output :
  stderr (Logger_handle Sample.P 2 logger_name Sample.bad_cover_record Sample.imported).2
  = [Written ("08:30:15 × filter | 日志过滤错误" +:+ NL +:+ "AttributeError" +:+ NL +:+
              "Stack (most recent call last):" +:+ NL)].
Proof. vm_compute. reflexivity. Qed.

(** ** The Qt message handler *)

Lemma qt_cover_lookup (P : Platform) (context : QMessageLogContext) :
  qt_cover P context !! "cover" = None /\
  qt_cover P context !! "module" = Some (PStr "qml") /\
  qt_cover P context !! "levelno" = None /\
  qt_cover P context !! "levelname" = None /\
  qt_cover P context !! "msg" = None /\
  (function context = Some "" ->
   qt_cover P context !! "funcName" = Some (PStr "()=>{}")).
Proof.
  repeat split; try reflexivity.
  intros H. unfold qt_cover. rewrite H. reflexivity.
Qed.

Lemma qt_record_lookup (P : Platform) (w : world) (level : Z) (s : site)
    (msg : pyval) (k : string) (cover : pyval) :
  let rv := LogRecord_init P w logger_name level s msg (PTuple []) PNone PNone in
  extra_allowed rv {[ "cover" := cover ]} = true /\
  (({[ "cover" := cover ]} : gmap string pyval) ∪ rv) !! "cover" = Some cover /\
  (k <> "cover" -> (({[ "cover" := cover ]} : gmap string pyval) ∪ rv) !! k = rv !! k).
Proof.
  intros rv. split; [|split].
  - unfold extra_allowed. rewrite map_fold_singleton. reflexivity.
  - apply lookup_union_Some_l. by rewrite lookup_singleton_eq.
  - intros Hk. rewrite lookup_union_r; [done|]. by rewrite lookup_singleton_ne.
Qed.

(** C7.  The handler calls the logger method of the severity the
    specification pairs with the toolkit's: debug with DEBUG, info with
    INFO, warning with WARNING, critical with ERROR, fatal with CRITICAL,
    passing the message and the override map, which tags the module as
    ["qml"] and, when the function name of the context is empty, names
    the function ["()=>{}"].  On a logger set up by [create_logger] the
    record that reaches the handlers carries that level, that module and
    that function name; in particular a fatal message is CRITICAL. *)
Theorem qt_handler_maps_severity (P : Platform) (fuel : nat) (mode : QtMsgType)
    (level : Z) (context : QMessageLogContext) (msg : string) (w : world)
    (lg : Logger) :
  spec_severity mode = Some level ->
  loggers w !! logger_name = Some lg ->
  llevel lg <= level ->
  lfilters lg <> [] ->
  (exists lineno,
     forall call : logger_call,
       qt_message_handler P call mode context msg
       = call level (qt_site lineno) (PStr msg) false false
           (Some {[ "cover" := PDict (qt_cover P context) ]})) /\
  qt_cover P context !! "module" = Some (PStr "qml") /\
  (function context = Some "" ->
   qt_cover P context !! "funcName" = Some (PStr "()=>{}")) /\
  exists record,
    qt_message_handler P (logger P (S fuel)) mode context msg w
    = callHandlers P (lhandlers lg) record w /\
    record !! "levelno" = Some (PInt level) /\
    record !! "levelname" = Some (PStr (getLevelName level)) /\
    record !! "msg" = Some (PStr msg) /\
    record !! "module" = Some (PStr "qml") /\
    (function context = Some "" -> record !! "funcName" = Some (PStr "()=>{}")) /\
    (mode = QtFatalMsg -> record !! "levelname" = Some (PStr "CRITICAL")).
Proof.
  intros Hmode Hlg Hlevel Hf.
  destruct (qt_cover_lookup P context) as (Hcc & Hmod & Hno & Hname & Hmsg & Hfn).
  assert (Hdispatch : exists lineno, forall call : logger_call,
    qt_message_handler P call mode context msg
    = call level (qt_site lineno) (PStr msg) false false
        (Some {[ "cover" := PDict (qt_cover P context) ]})).
  { destruct mode; simplify_eq/=; eexists; intros; reflexivity. }
  split; [done|]. split; [done|]. split; [done|].
  destruct Hdispatch as [lineno Hd].
  set (rv := LogRecord_init P w logger_name level (qt_site lineno) (PStr msg)
               (PTuple []) PNone PNone).
  set (record0 := ({[ "cover" := PDict (qt_cover P context) ]} : gmap string pyval) ∪ rv).
  exists (map_fold _CoverFilter.cover_step record0 (qt_cover P context)).
  assert (H0 : record0 !! "cover" = Some (PDict (qt_cover P context))).
  { apply (qt_record_lookup P w level (qt_site lineno) (PStr msg) "cover"). }
  assert (Hother : forall k, k <> "cover" -> record0 !! k = rv !! k).
  { intros k. apply (qt_record_lookup P w level (qt_site lineno) (PStr msg) k). }
  split.
  - rewrite Hd. unfold logger, Logger_log, the_logger. run_stx.
    rewrite Hlg. cbn beta iota. rewrite (proj2 (Z.leb_le _ _) Hlevel).
    unfold makeRecord. run_stx. cbn beta iota. fold rv.
    assert (Hallow : extra_allowed rv {[ "cover" := PDict (qt_cover P context) ]} = true)
      by apply (qt_record_lookup P w level (qt_site lineno) (PStr msg) "cover").
    rewrite Hallow.
    cbn beta iota. fold record0.
    cbn [Logger_handle]. unfold the_logger. run_stx. rewrite Hlg. cbn beta iota.
    rewrite (Filterer_filter_cover _ _ record0 (qt_cover P context) w H0 Hcc).
    cbn beta iota. destruct (lfilters lg) as [|f fl]; [by destruct Hf|reflexivity].
  - rewrite !cover_loop_lookup, !Hother by done.
    rewrite Hno, Hname, Hmsg, Hmod.
    repeat split; try reflexivity.
    + intros Hfun. rewrite (Hfn Hfun). reflexivity.
    + intros ->. injection Hmode as <-. reflexivity.
Qed.

Lemma qt_handler_maps_severity_witness :
  let w := Sample.imported in
  let lg := registered Sample.imported logger_name in
  let context := Sample.qml_context in
  (exists lineno,
     forall call : logger_call,
       qt_message_handler Sample.P call QtFatalMsg context "boom"
       = call CRITICAL (qt_site lineno) (PStr "boom") false false
           (Some {[ "cover" := PDict (qt_cover Sample.P context) ]})) /\
  qt_cover Sample.P context !! "module" = Some (PStr "qml") /\
  (function context = Some "" ->
   qt_cover Sample.P context !! "funcName" = Some (PStr "()=>{}")) /\
  exists record,
    qt_message_handler Sample.P (logger Sample.P 1) QtFatalMsg context "boom" w
    = callHandlers Sample.P (lhandlers lg) record w /\
    record !! "levelno" = Some (PInt CRITICAL) /\
    record !! "levelname" = Some (PStr (getLevelName CRITICAL)) /\
    record !! "msg" = Some (PStr "boom") /\
    record !! "module" = Some (PStr "qml") /\
    (function context = Some "" -> record !! "funcName" = Some (PStr "()=>{}")) /\
    (QtFatalMsg = QtFatalMsg -> record !! "levelname" = Some (PStr "CRITICAL")).
Proof.
  apply (qt_handler_maps_severity Sample.P 0 QtFatalMsg CRITICAL Sample.qml_context
           "boom" Sample.imported (registered Sample.imported logger_name)).
  - reflexivity.
  - vm_compute. reflexivity.
  - vm_compute. discriminate.
  - vm_compute. discriminate.
Defined.

Example qml_fatal_output :
  stderr (qt_message_handler Sample.P (logger Sample.P 1) QtFatalMsg
            Sample.qml_context "boom" Sample.imported).2
  = [Written ("08:30:15 ! ()=>{} | boom" +:+ NL)].
Proof. vm_compute. reflexivity. Qed.

(** C10.  For a [mode] that is none of the five severities the handler
    returns at once: it calls no method of the logger, whatever the
    logger is, and the process is as it was. *)
Theorem qt_handler_ignores_other_modes (P : Platform) (call : logger_call)
    (code : Z) (context : QMessageLogContext) (msg : string) (w : world) :
  spec_severity (QtOtherMsg code) = None /\
  qt_message_handler P call (QtOtherMsg code) context msg w = (Returns tt, w).
Proof. split; reflexivity. Qed.

(** ** [create_logger] *)

Lemma format_inv (P : Platform) (r r' : LogRecord) (line : string) :
  _LevelFormatter.format P r = (Returns line, r') ->
  exists lv sym,
    r !! "levelname" = Some lv /\
    _LevelFormatter.get_symbol lv = Ok sym /\
    _LevelFormatter.Formatter_format P (setattr r "levelsymbol" sym)
      = (Returns line, r').
Proof.
  unfold _LevelFormatter.format. run_stx.
  next Hlv. next Hsym. apply getattr_Ok in Hlv. eauto.
Qed.

Lemma format_idem (P : Platform) (r r' : LogRecord) (line : string) :
  _LevelFormatter.format P r = (Returns line, r') ->
  _LevelFormatter.format P r' = (Returns line, r').
Proof.
  intros H. destruct (format_inv P r r' line H) as (lv & sym & Hlv & Hsym & HF).
  pose proof (Formatter_format_frame P (setattr r "levelsymbol" sym)) as Hfr.
  rewrite HF in Hfr. cbn [snd] in Hfr.
  unfold _LevelFormatter.format. run_stx.
  unfold getattr. rewrite (Hfr "levelname") by done.
  unfold setattr at 1. rewrite lookup_insert_ne by done. rewrite Hlv.
  cbn [outcome_of]; cbn beta iota. rewrite Hsym. cbn [outcome_of]; cbn beta iota.
  rewrite (setattr_same r' "levelsymbol" sym).
  - by apply Formatter_format_idem in HF.
  - rewrite (Hfr "levelsymbol") by done. unfold setattr. by rewrite lookup_insert_eq.
Qed.

Lemma repeat_text_snoc (n : nat) (s : string) :
  repeat_text n s +:+ s = s +:+ repeat_text n s.
Proof.
  induction n as [|n IH]; cbn [repeat_text].
  - by rewrite string_app_nil_r.
  - by rewrite string_app_assoc, IH.
Qed.



Lemma alter_known (f : Logger -> Logger) (name : string)
    (m : gmap string Logger) (lg : Logger) :
  m !! name = Some lg -> alter f name m = <[name := f lg]> m.
Proof.
  intros H. apply map_eq. intros k. rewrite lookup_alter, lookup_insert.
  case_decide; subst; by rewrite ?H.
Qed.

Lemma fresh_not_filter (w : world) (name : string) :
  fresh_ids w name -> next_id w ∉ lfilters (registered w name).
Proof.
  intros [H _] Hin. rewrite Forall_forall in H. specialize (H _ Hin). lia.
Qed.

Lemma fresh_not_handler (w : world) (name : string) (id : positive) :
  fresh_ids w name -> (next_id w <= id)%positive ->
  id ∉ map hid (lhandlers (registered w name)).
Proof.
  intros [_ H] Hle Hin. apply list_elem_of_fmap in Hin as (h & -> & Hh).
  rewrite Forall_forall in H. specialize (H _ Hh). lia.
Qed.

Lemma create_logger_loggers (P : Platform) (name : string) (w : world) (J : handler) :
  fresh_ids w name ->
  hid J = Pos.succ (Pos.succ (next_id w)) ->
  alter
    (fun lg : Logger =>
       if bool_decide (hid J ∈ map hid (lhandlers lg)) then lg
       else {| llevel := llevel lg; lfilters := lfilters lg;
               lhandlers := lhandlers lg ++ [J] |})
    name
    (alter
       (fun lg : Logger =>
          if bool_decide (Pos.succ (next_id w) ∈ map hid (lhandlers lg)) then lg
          else {| llevel := llevel lg; lfilters := lfilters lg;
                  lhandlers := lhandlers lg ++ [console_handler (Pos.succ (next_id w))] |})
       name
       (alter
          (fun lg : Logger =>
             {| llevel := DEBUG; lfilters := lfilters lg; lhandlers := lhandlers lg |})
          name
          (alter
             (fun lg : Logger =>
                if bool_decide (next_id w ∈ lfilters lg) then lg
                else {| llevel := llevel lg; lfilters := lfilters lg ++ [next_id w];
                        lhandlers := lhandlers lg |})
             name
             match loggers w !! name with
             | Some _ => loggers w
             | None =>
                 <[name := {| llevel := 0; lfilters := []; lhandlers := [] |}]>
                   (loggers w)
             end)))
  = <[name := {| llevel := DEBUG;
                 lfilters := lfilters (registered w name) ++ [next_id w];
                 lhandlers := lhandlers (registered w name) ++
                   [console_handler (Pos.succ (next_id w)); J] |}]> (loggers w).
Proof.
  intros Hfresh HJ.
  set (m0 := match loggers w !! name with
             | Some _ => loggers w
             | None => <[name := _]> (loggers w)
             end).
  assert (H0 : m0 !! name = Some (registered w name)).
  { unfold m0, registered. destruct (loggers w !! name) eqn:E; cbn.
    - done.
    - by rewrite lookup_insert_eq. }
  assert (Hm0 : forall x, <[name := x]> m0 = <[name := x]> (loggers w)).
  { intros x. unfold m0. destruct (loggers w !! name); [done|].
    by rewrite insert_insert_eq. }
  rewrite (alter_known _ name m0 _ H0).
  rewrite bool_decide_eq_false_2 by by apply fresh_not_filter.
  rewrite (alter_known _ name _ _ (lookup_insert_eq _ _ _)). cbn [lfilters lhandlers].
  rewrite insert_insert_eq.
  rewrite (alter_known _ name _ _ (lookup_insert_eq _ _ _)). cbn [lfilters lhandlers llevel].
  rewrite bool_decide_eq_false_2 by (apply fresh_not_handler; [done|lia]).
  rewrite insert_insert_eq.
  rewrite (alter_known _ name _ _ (lookup_insert_eq _ _ _)). cbn [lfilters lhandlers llevel].
  rewrite bool_decide_eq_false_2.
  - rewrite insert_insert_eq, Hm0. by rewrite <- app_assoc.
  - rewrite map_app, elem_of_app. intros [Hin|Hin].
    + revert Hin. apply fresh_not_handler; [done|lia].
    + cbn in Hin. apply list_elem_of_singleton in Hin. lia.
Qed.

Lemma create_logger_spec (P : Platform) (name : string) (w : world) :
  fresh_ids w name ->
  exists w',
    _LogManager.create_logger P name w = (Returns name, w') /\
    loggers w' = <[name := configured P w name]> (loggers w) /\
    fs w' = (if bool_decide (is_Some (fs w !! _LogManager._log_dir)) then fs w
             else <[_LogManager._log_dir := Dir]> (fs w)) /\
    stderr w' = stderr w /\
    now w' = now w /\
    next_id w' = Pos.succ (Pos.succ (Pos.succ (next_id w))).
Proof.
  intros Hfresh.
  unfold _LogManager.create_logger, _LogManager.getLogger, _LogManager.addFilter,
    _LogManager.setLevel, _LogManager.addHandler, _LogManager._get_console_handler,
    _LogManager._get_json_handler, _LogManager.fresh, _LogManager.makedirs.
  run_stx. cbn.
  destruct (bool_decide (is_Some (fs w !! _LogManager._log_dir))) eqn:Hdir; cbn.
  - eexists. split; [reflexivity|]. cbn.
    split; [|done].
    exact (create_logger_loggers P name w
             (json_handler P w (Pos.succ (Pos.succ (next_id w)))) Hfresh eq_refl).
  - eexists. split; [reflexivity|]. cbn.
    split; [|done].
    exact (create_logger_loggers P name w
             (json_handler P w (Pos.succ (Pos.succ (next_id w)))) Hfresh eq_refl).
Qed.









(** * Further properties of the code *)

(** ** The text writer *)

Lemma line_count_put_file (w : world) (path data : string) :
  line_count (put_file path data w) path = count_nl data.
Proof. unfold line_count, content, put_file. cbn. by rewrite lookup_insert_eq. Qed.

Lemma content_put_file (w : world) (path data : string) :
  content (put_file path data w) path = data.
Proof. unfold content, put_file. cbn. by rewrite lookup_insert_eq. Qed.

Lemma content_report (e : exn) (w : world) (path : string) :
  content (report e w) path = content w path.
Proof. reflexivity. Qed.

Lemma add_lines_extends (l : list pyval) (acc t : string) :
  OutputTxt.add_lines acc l = Ok t -> exists body, t = acc +:+ body.
Proof.
  revert acc. induction l as [|r l IH]; intros acc; cbn [OutputTxt.add_lines].
  - intros [= <-]. exists "". by rewrite string_app_nil_r.
  - unfold mbind, result_bind. destruct (OutputTxt.text_line r) as [line|e]; [|done].
    intros H. destruct (IH _ H) as [body ->]. exists (line +:+ body).
    by rewrite string_app_assoc.
Qed.

Lemma text_line_Ok (r : pyval) (line : string) :
  OutputTxt.text_line r = Ok line -> exists s, block_with_text r s.
Proof.
  unfold OutputTxt.text_line, block_with_text.
  destruct r as [| | | | | |m|]; try done.
  destruct (m !! "text") as [[]|] eqn:E; try done. eauto.
Qed.

Lemma text_line_Raise (r : pyval) (e : exn) :
  OutputTxt.text_line r = Raise e -> e = TypeError \/ e = KeyError.
Proof.
  unfold OutputTxt.text_line.
  destruct r as [| | | | | |m|]; try (intros [= <-]; auto).
  destruct (m !! "text") as [[]|]; intros [= <-]; auto.
Qed.

Lemma add_lines_bad_block (l : list pyval) (acc : string) :
  Exists (fun r => forall s, ~ block_with_text r s) l ->
  exists e, OutputTxt.add_lines acc l = Raise e /\ (e = TypeError \/ e = KeyError).
Proof.
  intros H. revert acc. induction H as [r l Hr|r l _ IH]; intros acc;
    cbn [OutputTxt.add_lines]; unfold mbind, result_bind.
  - destruct (OutputTxt.text_line r) as [line|e] eqn:E.
    + apply text_line_Ok in E as [s Hs]. by destruct (Hr s).
    + exists e. split; [done|]. by eapply text_line_Raise.
  - destruct (OutputTxt.text_line r) as [line|e] eqn:E.
    + apply IH.
    + exists e. split; [done|]. by eapply text_line_Raise.
Qed.

Lemma string_length_app (a b : string) :
  String.length (a +:+ b) = (String.length a + String.length b)%nat.
Proof. induction a as [|c a IH]; simpl; [done|]. by rewrite IH. Qed.

Lemma string_app_grows (a b : string) : a = a +:+ b -> b = "".
Proof.
  intros H. apply (f_equal String.length) in H. rewrite string_length_app in H.
  destruct b; [done|]. cbn in H. lia.
Qed.

Lemma print_outcomes (P : Platform) (self : OutputTxt.t) (res : OutputTxt.res)
    (w : world) :
  ((negb (OutputTxt.code res =? 100) && OutputTxt.ingoreBlank self) = true /\
   OutputTxt.print P self res w = (Returns tt, w)) \/
  ((negb (OutputTxt.code res =? 100) && OutputTxt.ingoreBlank self) = false /\
   ((exists e, OutputTxt.print P self res w = (Raises e, w)) \/
    exists body,
      OutputTxt.print P self res w
      = (Returns tt,
         put_file (OutputTxt.outputPath self)
           (content w (OutputTxt.outputPath self) +:+
            ("≦ " +:+ OutputTxt.res_fileName res +:+ " ≧" +:+ NL) +:+
            body +:+ NL) w))).
Proof.
  unfold OutputTxt.print.
  destruct (negb (OutputTxt.code res =? 100) && OutputTxt.ingoreBlank self);
    [left; done|right; split; [done|]].
  set (heading := "≦ " +:+ OutputTxt.res_fileName res +:+ " ≧" +:+ NL).
  set (built := if OutputTxt.code res =? 100 then _ else _).
  assert (Hbuilt : (exists e, built = Raise e) \/
                   exists body, built = Ok (heading +:+ body)).
  { unfold built. destruct (OutputTxt.code res =? 100).
    - unfold mbind, result_bind.
      destruct (OutputTxt.iterate (OutputTxt.data res)) as [l|e]; [|eauto].
      destruct (OutputTxt.add_lines heading l) as [t|e] eqn:E; [|eauto].
      right. apply add_lines_extends in E as [body ->]. eauto.
    - destruct (OutputTxt.code res =? 101); right; eexists; reflexivity. }
  unfold open_append, write. run_stx.
  destruct Hbuilt as [[e ->]|[body ->]]; cbn [outcome_of].
  - left. eauto.
  - destruct (fs w !! OutputTxt.outputPath self) as [[old|]|] eqn:Hp.
    + right. exists body. cbn. solve_world Hp.
    + left. eauto.
    + right. exists body. cbn. solve_world Hp.
Qed.

(** X1.  [print] returns with nothing written exactly when the code of
    the result is not 100 and blank results are ignored: that setting
    drops a failed recognition as well as an image without text, and in
    every other case [print] writes or raises. *)
Theorem print_silent_iff (P : Platform) (self : OutputTxt.t)
    (res : OutputTxt.res) (w : world) :
  OutputTxt.print P self res w = (Returns tt, w) <->
  OutputTxt.code res <> 100 /\ OutputTxt.ingoreBlank self = true.
Proof.
  destruct (print_outcomes P self res w) as [[Hc Hr]|[Hc Hr]].
  - apply andb_true_iff in Hc as [Hc Hb]. apply negb_true_iff, Z.eqb_neq in Hc.
    split; [done|]. by intros _.
  - split.
    + intros Hq. exfalso. destruct Hr as [[e He]|[body Hbody]]; [congruence|].
      rewrite Hq in Hbody. injection Hbody as Hw.
      apply (f_equal (fun w => content w (OutputTxt.outputPath self))) in Hw.
      rewrite content_put_file in Hw.
      rewrite <- !string_app_assoc in Hw. rewrite !string_app_assoc in Hw.
      by apply string_app_grows in Hw.
    + intros [Hn Hb]. apply Z.eqb_neq in Hn. by rewrite Hn, Hb in Hc.
Qed.

(** X2.  [print] only ever appends.  Either it raises and the process is
    as it was, or it returns having written nothing, or it returns and
    the one change is that the output file holds what it held followed
    by the heading of the image, a body, and a closing line break. *)
Theorem print_appends_only (P : Platform) (self : OutputTxt.t)
    (res : OutputTxt.res) (w : world) :
  (exists e, OutputTxt.print P self res w = (Raises e, w)) \/
  OutputTxt.print P self res w = (Returns tt, w) \/
  exists body,
    OutputTxt.print P self res w
    = (Returns tt,
       put_file (OutputTxt.outputPath self)
         (content w (OutputTxt.outputPath self) +:+
          ("≦ " +:+ OutputTxt.res_fileName res +:+ " ≧" +:+ NL) +:+
          body +:+ NL) w).
Proof.
  destruct (print_outcomes P self res w) as [[_ Hr]|[_ [Hr|Hr]]]; auto.
Qed.

(** X3.  When blank results are not ignored, a result with code 101
    appends the heading and the two lines of the no-text notice, and a
    result with any other code than 100 appends the heading, a line
    with the code and the data as text, and the failure line; each
    block closes with an empty line. *)
Theorem print_notice_and_error_blocks (P : Platform) (self : OutputTxt.t)
    (res : OutputTxt.res) (w : world) :
  OutputTxt.ingoreBlank self = false ->
  fs w !! OutputTxt.outputPath self <> Some Dir ->
  (OutputTxt.code res = 101 ->
   OutputTxt.print P self res w
   = (Returns tt,
      put_file (OutputTxt.outputPath self)
        (content w (OutputTxt.outputPath self) +:+
         "≦ " +:+ OutputTxt.res_fileName res +:+ " ≧" +:+ NL +:+
         "[Notice] No Text. " +:+ NL +:+ "【通知】图片中未找到文字。" +:+ NL +:+
         NL) w)) /\
  (OutputTxt.code res <> 100 -> OutputTxt.code res <> 101 ->
   OutputTxt.print P self res w
   = (Returns tt,
      put_file (OutputTxt.outputPath self)
        (content w (OutputTxt.outputPath self) +:+
         "≦ " +:+ OutputTxt.res_fileName res +:+ " ≧" +:+ NL +:+
         "[Error] OCR failed. Code: " +:+ dec (OutputTxt.code res) +:+
         ", Msg: " +:+ py_str P (OutputTxt.data res) +:+ NL +:+
         "【异常】OCR识别失败。" +:+ NL +:+
         NL) w)).
Proof.
  intros Hb Hf. split.
  - intros Hc. unfold OutputTxt.print. rewrite Hb, Hc. cbn.
    unfold open_append, write. run_stx. cbn.
    destruct (fs w !! OutputTxt.outputPath self) as [[old|]|] eqn:Hp; [|done|];
      cbn; solve_world Hp.
  - intros H100 H101. unfold OutputTxt.print.
    rewrite Hb, (proj2 (Z.eqb_neq _ _) H100), (proj2 (Z.eqb_neq _ _) H101).
    cbn [negb andb].
    unfold open_append, write. run_stx. cbn [outcome_of]. cbn beta iota.
    destruct (fs w !! OutputTxt.outputPath self) as [[old|]|] eqn:Hp; [|done|].
    + cbn beta iota. f_equal. apply world_eq; try done.
      unfold put_file, content. cbn [fs set_fs]. rewrite Hp. cbn beta iota.
      by rewrite !string_app_assoc.
    + cbn beta iota. f_equal. apply world_eq; try done.
      unfold put_file, content. cbn [fs set_fs]. rewrite Hp, lookup_insert_eq.
      cbn beta iota. rewrite insert_insert_eq. by rewrite !string_app_assoc.
Qed.

Lemma print_notice_and_error_blocks_witness :
  let self := {| OutputTxt.dir := "/out"; OutputTxt.fileName := "result";
                 OutputTxt.outputPath := "/out/result.txt";
                 OutputTxt.ingoreBlank := false |} in
  let res := {| OutputTxt.code := 299; OutputTxt.res_fileName := "a.png";
                OutputTxt.data := PStr "timeout" |} in
  (OutputTxt.code res = 101 ->
   OutputTxt.print Sample.P self res Posix.boot
   = (Returns tt,
      put_file (OutputTxt.outputPath self)
        (content Posix.boot (OutputTxt.outputPath self) +:+
         "≦ " +:+ OutputTxt.res_fileName res +:+ " ≧" +:+ NL +:+
         "[Notice] No Text. " +:+ NL +:+ "【通知】图片中未找到文字。" +:+ NL +:+
         NL) Posix.boot)) /\
  (OutputTxt.code res <> 100 -> OutputTxt.code res <> 101 ->
   OutputTxt.print Sample.P self res Posix.boot
   = (Returns tt,
      put_file (OutputTxt.outputPath self)
        (content Posix.boot (OutputTxt.outputPath self) +:+
         "≦ " +:+ OutputTxt.res_fileName res +:+ " ≧" +:+ NL +:+
         "[Error] OCR failed. Code: " +:+ dec (OutputTxt.code res) +:+
         ", Msg: " +:+ py_str Sample.P (OutputTxt.data res) +:+ NL +:+
         "【异常】OCR识别失败。" +:+ NL +:+
         NL) Posix.boot)).
Proof.
  apply (print_notice_and_error_blocks Sample.P
           {| OutputTxt.dir := "/out"; OutputTxt.fileName := "result";
              OutputTxt.outputPath := "/out/result.txt";
              OutputTxt.ingoreBlank := false |}
           {| OutputTxt.code := 299; OutputTxt.res_fileName := "a.png";
              OutputTxt.data := PStr "timeout" |} Posix.boot).
  - reflexivity.
  - vm_compute. discriminate.
Defined.

(** X4.  A text result is written whole or not at all: when the data of
    a result with code 100 cannot be walked, or one of its blocks is not
    a dictionary with a text string, [print] raises [TypeError] or
    [KeyError] and nothing has been written, neither the heading nor the
    fragments before the bad block. *)
Theorem print_bad_block_writes_nothing (P : Platform) (self : OutputTxt.t)
    (res : OutputTxt.res) (w : world) :
  OutputTxt.code res = 100 ->
  (exists e, OutputTxt.iterate (OutputTxt.data res) = Raise e) \/
  (exists l, OutputTxt.iterate (OutputTxt.data res) = Ok l /\
             Exists (fun r => forall s, ~ block_with_text r s) l) ->
  exists e,
    OutputTxt.print P self res w = (Raises e, w) /\
    (e = TypeError \/ e = KeyError).
Proof.
  intros Hc Hbad. unfold OutputTxt.print. rewrite Hc. cbn [Z.eqb Pos.eqb negb andb].
  unfold mbind at 2. unfold result_bind. run_stx.
  destruct Hbad as [[e He]|(l & Hl & Hex)].
  - rewrite He. cbn. exists e. split; [done|].
    revert He. unfold OutputTxt.iterate.
    destruct (OutputTxt.data res); intros [= <-]; auto.
  - rewrite Hl.
    destruct (add_lines_bad_block l
                ("≦ " +:+ OutputTxt.res_fileName res +:+ " ≧" +:+ NL) Hex)
      as (e & -> & He).
    cbn. eauto.
Qed.

Lemma print_bad_block_writes_nothing_witness :
  exists e,
    OutputTxt.print Sample.P Sample.txt
      {| OutputTxt.code := 100; OutputTxt.res_fileName := "a.png";
         OutputTxt.data := PList [Sample.text_block "first"; PDict ∅] |}
      Posix.boot = (Raises e, Posix.boot) /\
    (e = TypeError \/ e = KeyError).
Proof.
  apply (print_bad_block_writes_nothing Sample.P Sample.txt
           {| OutputTxt.code := 100; OutputTxt.res_fileName := "a.png";
              OutputTxt.data := PList [Sample.text_block "first"; PDict ∅] |}
           Posix.boot).
  - reflexivity.
  - right. exists [Sample.text_block "first"; PDict ∅]. split; [reflexivity|].
    apply Exists_cons_tl, Exists_cons_hd.
    intros s (m & Hm & Ht). injection Hm as <-. by rewrite lookup_empty in Ht.
Defined.

(** ** The JSON handler, record after record *)

(** X5.  The log file holds one line per record that was persisted: an
    [emit] that succeeds adds exactly one line to the file, and an
    [emit] that fails adds none. *)
Theorem emit_counts_lines (P : Platform) (self : RotatingFileHandler)
    (record : LogRecord) (w : world) :
  (emit_fails P self record w ->
   line_count (_JsonRotatingFileHandler.emit P self record w).2 (baseFilename self)
   = line_count w (baseFilename self)) /\
  (~ emit_fails P self record w ->
   line_count (_JsonRotatingFileHandler.emit P self record w).2 (baseFilename self)
   = S (line_count w (baseFilename self))).
Proof.
  rewrite emit_cases. cbn [snd]. unfold emit_effect, emit_fails.
  destruct (_JsonRotatingFileHandler._record_to_dict P record) as [d|e].
  - destruct (json_dump d) as [text ok] eqn:Ht.
    pose proof (count_nl_json_dump d) as Hc. rewrite Ht in Hc. cbn [fst] in Hc.
    destruct (fs w !! baseFilename self) as [[old|]|] eqn:Hf.
    + destruct ok.
      * split.
        -- intros [[e ?]|[(d' & Hd' & Hk)|?]]; try done.
           injection Hd' as <-. by rewrite Ht in Hk.
        -- intros _. rewrite line_count_put_file.
           unfold line_count. rewrite !count_nl_app, Hc. cbn. lia.
      * split.
        -- intros _. unfold line_count. rewrite content_report, content_put_file.
           rewrite count_nl_app, Hc. lia.
        -- intros Hn. destruct Hn. right. left. exists d. by rewrite Ht.
    + split; [done|]. intros Hn. destruct Hn. by right; right.
    + destruct ok.
      * split.
        -- intros [[e ?]|[(d' & Hd' & Hk)|?]]; try done.
           injection Hd' as <-. by rewrite Ht in Hk.
        -- intros _. rewrite line_count_put_file.
           unfold line_count. rewrite !count_nl_app, Hc. cbn. lia.
      * split.
        -- intros _. unfold line_count. rewrite content_report, content_put_file.
           rewrite count_nl_app, Hc. lia.
        -- intros Hn. destruct Hn. right. left. exists d. by rewrite Ht.
  - split; [|intros Hn; destruct Hn; left; eauto].
    intros _.
    destruct (fs w !! baseFilename self) as [[old|]|] eqn:Hf; try done.
    + unfold line_count. by rewrite content_report, content_put_file.
    + unfold line_count. by rewrite content_report, content_put_file.
Qed.

(** X6.  When the record cannot be turned into the dictionary, [emit]
    goes on to the second [try] block with [log_dict] unbound: the error
    is reported, the file is opened all the same (and created empty if
    it did not exist), and a second error is reported, [UnboundLocalError]
    or, when the path names a directory, [OSError].  The text of the
    file is as it was. *)
Theorem emit_reports_twice (P : Platform) (self : RotatingFileHandler)
    (record : LogRecord) (w : world) (e : exn) :
  _JsonRotatingFileHandler._record_to_dict P record = Raise e ->
  exists w',
    _JsonRotatingFileHandler.emit P self record w = (Returns tt, w') /\
    stderr w'
    = (stderr w ++
       [LoggingError e;
        LoggingError (match fs w !! baseFilename self with
                      | Some Dir => OSError
                      | _ => UnboundLocalError
                      end)])%list /\
    content w' (baseFilename self) = content w (baseFilename self) /\
    (fs w !! baseFilename self = None ->
     fs w' !! baseFilename self = Some (File "")).
Proof.
  intros He. eexists. split; [apply emit_cases|].
  unfold emit_effect. rewrite He.
  destruct (fs w !! baseFilename self) as [[old|]|] eqn:Hf.
  - split; [cbn; by rewrite <- app_assoc|]. split; [|done].
    by rewrite content_report, content_put_file.
  - split; [cbn; by rewrite <- app_assoc|]. split; [done|done].
  - split; [cbn; by rewrite <- app_assoc|]. split.
    + by rewrite content_report, content_put_file.
    + intros _. cbn. rewrite lookup_insert_eq. unfold content. cbn. by rewrite Hf.
Qed.

Lemma emit_reports_twice_witness :
  exists w',
    _JsonRotatingFileHandler.emit Sample.P Sample.json_config
      Sample.bad_message_record Sample.imported = (Returns tt, w') /\
    stderr w'
    = (stderr Sample.imported ++
       [LoggingError TypeError;
        LoggingError (match fs Sample.imported !! baseFilename Sample.json_config with
                      | Some Dir => OSError
                      | _ => UnboundLocalError
                      end)])%list /\
    content w' (baseFilename Sample.json_config)
      = content Sample.imported (baseFilename Sample.json_config) /\
    (fs Sample.imported !! baseFilename Sample.json_config = None ->
     fs w' !! baseFilename Sample.json_config = Some (File "")).
Proof.
  apply (emit_reports_twice Sample.P Sample.json_config Sample.bad_message_record
           Sample.imported TypeError).
  vm_compute. reflexivity.
Defined.

(** X7.  [_record_to_dict] returns a dictionary exactly when the creation
    time converts, the message resolves, and the record has each of the
    twelve attributes the dictionary copies. *)
Theorem record_to_dict_succeeds_iff (P : Platform) (record : LogRecord) :
  (exists d, _JsonRotatingFileHandler._record_to_dict P record = Ok d) <->
  (exists created dt message,
     record !! "created" = Some created /\
     fromtimestamp P created = Ok dt /\
     getMessage P record = Ok message) /\
  Forall (fun k => is_Some (record !! k))
    ["levelname"; "filename"; "lineno"; "module"; "funcName"; "exc_text";
     "stack_info"; "thread"; "threadName"; "process"; "processName"; "name"].
Proof.
  split.
  - intros [d Hd]. revert Hd.
    unfold _JsonRotatingFileHandler._record_to_dict, getattr.
    unfold mbind, result_bind.
    repeat (case_match; try discriminate). intros _. simplify_eq.
    split; [by eauto 10|].
    repeat (constructor; [by eexists|]). constructor.
  - intros [(created & dt & message & Hc & Hdt & Hm) Hall].
    repeat match goal with
           | H : Forall _ (_ :: _) |- _ => apply Forall_cons in H as [[? ?] H]
           end.
    unfold _JsonRotatingFileHandler._record_to_dict, getattr.
    unfold mbind, result_bind.
    rewrite Hc, Hdt, Hm.
    repeat match goal with
           | H : record !! _ = Some _ |- _ => rewrite H; clear H
           end.
    eauto.
Qed.

(** X8.  When a value of the dictionary cannot be encoded, what
    [json.dump] wrote before it stays in the file without a line break,
    and one error is reported; the line of the next record that is
    persisted then follows that fragment on the same line. *)
Theorem emit_unencodable_leaves_fragment (P : Platform) (self : RotatingFileHandler)
    (record record2 : LogRecord) (w : world)
    (d d2 : list (string * pyval)) (text text2 : string) :
  _JsonRotatingFileHandler._record_to_dict P record = Ok d ->
  json_dump d = (text, false) ->
  _JsonRotatingFileHandler._record_to_dict P record2 = Ok d2 ->
  json_dump d2 = (text2, true) ->
  fs w !! baseFilename self <> Some Dir ->
  stderr (_JsonRotatingFileHandler.emit P self record w).2
    = (stderr w ++ [LoggingError TypeError])%list /\
  content (_JsonRotatingFileHandler.emit P self record w).2 (baseFilename self)
    = content w (baseFilename self) +:+ text /\
  count_nl text = 0%nat /\
  content
    (_JsonRotatingFileHandler.emit P self record2
       (_JsonRotatingFileHandler.emit P self record w).2).2 (baseFilename self)
    = content w (baseFilename self) +:+ text +:+ text2 +:+ NL.
Proof.
  intros Hd Ht Hd2 Ht2 Hf.
  rewrite !emit_cases. cbn [snd].
  assert (Hw1 : emit_effect P self record w
                = report TypeError
                    (put_file (baseFilename self)
                       (content w (baseFilename self) +:+ text) w)).
  { unfold emit_effect. rewrite Hd, Ht.
    by destruct (fs w !! baseFilename self) as [[?|]|]. }
  rewrite Hw1. split; [done|]. split; [by rewrite content_report, content_put_file|].
  split.
  { pose proof (count_nl_json_dump d) as H. by rewrite Ht in H. }
  unfold emit_effect at 1. rewrite Hd2, Ht2.
  cbn [fs report put_file set_stderr set_fs]. rewrite lookup_insert_eq.
  rewrite content_put_file, content_report, content_put_file.
  by rewrite !string_app_assoc.
Qed.

Lemma emit_unencodable_leaves_fragment_witness :
  let w := Sample.imported in
  let self := Sample.json_config in
  stderr (_JsonRotatingFileHandler.emit Sample.P self Cases.unencodable_record w).2
    = (stderr w ++ [LoggingError TypeError])%list /\
  content (_JsonRotatingFileHandler.emit Sample.P self Cases.unencodable_record w).2
      (baseFilename self)
    = content w (baseFilename self) +:+ Cases.fragment /\
  count_nl Cases.fragment = 0%nat /\
  content
    (_JsonRotatingFileHandler.emit Sample.P self Sample.plain_record
       (_JsonRotatingFileHandler.emit Sample.P self Cases.unencodable_record w).2).2
      (baseFilename self)
    = content w (baseFilename self) +:+ Cases.fragment +:+ Sample.plain_text +:+ NL.
Proof.
  apply (emit_unencodable_leaves_fragment Sample.P Sample.json_config
           Cases.unencodable_record Sample.plain_record Sample.imported
           Cases.unencodable_dict Sample.plain_dict Cases.fragment Sample.plain_text).
  - vm_compute. reflexivity.
  - vm_compute. reflexivity.
  - vm_compute. reflexivity.
  - vm_compute. reflexivity.
  - vm_compute. discriminate.
Defined.

(** ** The override filter, attached more than once *)



(** ** The console formatter and the handlers behind it *)

Lemma record_to_dict_ext (P : Platform) (r r' : LogRecord) :
  (forall k, k <> "levelsymbol" -> k <> "message" -> k <> "asctime" ->
             r' !! k = r !! k) ->
  _JsonRotatingFileHandler._record_to_dict P r'
  = _JsonRotatingFileHandler._record_to_dict P r.
Proof.
  intros H. unfold _JsonRotatingFileHandler._record_to_dict.
  rewrite (getMessage_ext P r r') by (apply H; done).
  unfold getattr. by rewrite !H by done.
Qed.

Lemma record_to_dict_exc_text (P : Platform) (r : LogRecord) (v : pyval)
    (d : list (string * pyval)) :
  _JsonRotatingFileHandler._record_to_dict P r = Ok d ->
  _JsonRotatingFileHandler._record_to_dict P (setattr r "exc_text" v)
  = Ok (with_member "exc_text" v d).
Proof.
  unfold _JsonRotatingFileHandler._record_to_dict.
  rewrite (getMessage_ext P r (setattr r "exc_text" v))
    by (unfold setattr; by rewrite lookup_insert_ne).
  attrs. unfold getattr, mbind, result_bind.
  repeat (case_match; try discriminate). simplify_eq.
  intros [= <-]. reflexivity.
Qed.

(** X10.  Formatting a record for the console changes, or adds, no
    attribute of it but [levelsymbol], [message], [asctime] and
    [exc_text], whether it succeeds or not. *)
Theorem format_touches_four_attributes (P : Platform) (record : LogRecord)
    (k : string) :
  k <> "levelsymbol" -> k <> "message" -> k <> "asctime" -> k <> "exc_text" ->
  (_LevelFormatter.format P record).2 !! k = record !! k.
Proof. apply format_frame. Qed.

Lemma format_touches_four_attributes_witness :
  (_LevelFormatter.format Sample.P Cases.failed_record).2 !! "exc_info"
  = Cases.failed_record !! "exc_info".
Proof.
  apply (format_touches_four_attributes Sample.P Cases.failed_record "exc_info");
    discriminate.
Defined.

(** X11.  Formatting is idempotent on the record it leaves: a second
    console handler that formats the record after the first renders the
    same line and changes nothing more. *)
Theorem format_twice_same_line (P : Platform) (record r1 : LogRecord)
    (line : string) (w : world) :
  _LevelFormatter.format P record = (Returns line, r1) ->
  _LevelFormatter.format P r1 = (Returns line, r1) /\
  StreamHandler_emit P r1 (StreamHandler_emit P record w).2
  = (Returns r1,
     set_stderr (fun out => (out ++ [Written (line +:+ NL); Written (line +:+ NL)])%list) w).
Proof.
  intros H. pose proof (format_idem P record r1 line H) as H1.
  split; [done|].
  rewrite !StreamHandler_emit_cases, H, H1. cbn [fst snd].
  f_equal. apply world_eq; try done. cbn. by rewrite <- app_assoc.
Qed.

Lemma format_twice_same_line_witness :
  _LevelFormatter.format Sample.P Sample.plain_formatted
    = (Returns Sample.plain_line, Sample.plain_formatted) /\
  StreamHandler_emit Sample.P Sample.plain_formatted
    (StreamHandler_emit Sample.P Sample.plain_record Sample.imported).2
  = (Returns Sample.plain_formatted,
     set_stderr (fun out => (out ++ [Written (Sample.plain_line +:+ NL);
                                     Written (Sample.plain_line +:+ NL)])%list)
       Sample.imported).
Proof.
  apply (format_twice_same_line Sample.P Sample.plain_record Sample.plain_formatted
           Sample.plain_line Sample.imported).
  vm_compute. reflexivity.
Defined.

(** X12.  The line of a record that carries no exception and no stack
    text is the clock time of its creation, the symbol of its level, the
    function name and the resolved message, laid out as
    [HH:MM:SS symbol function | message]. *)
Theorem format_plain_layout (P : Platform) (record : LogRecord)
    (name fn message : string) (created : pyval) (dt : datetime) :
  record !! "levelname" = Some (PStr name) ->
  record !! "funcName" = Some (PStr fn) ->
  record !! "created" = Some created ->
  fromtimestamp P created = Ok dt ->
  getMessage P record = Ok message ->
  record !! "exc_info" = Some PNone ->
  record !! "exc_text" = Some PNone ->
  record !! "stack_info" = Some PNone ->
  (_LevelFormatter.format P record).1
  = Returns (zfill 2 (dec (hour dt)) +:+ ":" +:+ zfill 2 (dec (minute dt)) +:+ ":" +:+
             zfill 2 (dec (second dt)) +:+ " " +:+
             default name (_LevelFormatter.LEVEL_SYMBOLS !! name) +:+ " " +:+
             fn +:+ " | " +:+ message).
Proof.
  intros Hlv Hfn Hc Hdt Hm Hei Het Hsi.
  unfold _LevelFormatter.format. run_stx.
  unfold getattr at 1. rewrite Hlv. cbn [outcome_of]. cbn beta iota.
  rewrite get_symbol_str. cbn [outcome_of]. cbn beta iota.
  set (sym := default name (_LevelFormatter.LEVEL_SYMBOLS !! name)).
  rewrite (Formatter_format_intro P (setattr record "levelsymbol" (PStr sym))
             message created dt (PStr sym) (PStr fn) PNone PNone PNone).
  - cbn [fst]. unfold console_line, cached_exc_text, strftime_clock.
    cbn [truthy andb negb py_str]. cbn beta iota.
    by rewrite !string_app_assoc.
  - rewrite <- Hm. apply getMessage_ext; unfold setattr; by rewrite lookup_insert_ne.
  - unfold setattr; by rewrite lookup_insert_ne.
  - done.
  - unfold setattr; by rewrite lookup_insert_eq.
  - unfold setattr; by rewrite lookup_insert_ne.
  - unfold setattr; by rewrite lookup_insert_ne.
  - unfold setattr; by rewrite lookup_insert_ne.
  - unfold setattr; by rewrite lookup_insert_ne.
Qed.

Lemma format_plain_layout_witness :
  (_LevelFormatter.format Sample.P Sample.plain_record).1
  = Returns ("08" +:+ ":" +:+ "30" +:+ ":" +:+ "15" +:+ " " +:+
             "i" +:+ " " +:+ "main" +:+ " | " +:+ "hello").
Proof.
  apply (format_plain_layout Sample.P Sample.plain_record "INFO" "main" "hello"
           (PInt 1715934615)
           {| year := 2024; month := 5; day := 17; hour := 8; minute := 30;
              second := 15; microsecond := 0 |});
    vm_compute; reflexivity.
Defined.

(** X13.  The exception text of a JSON line comes from the console
    formatter: a record with an active exception and no exception text
    serializes with [exc_text] null, and after the console handler has
    formatted it the same record serializes with the text of the
    exception, every other member being the same. *)
Theorem json_exc_text_from_console (P : Platform) (record r1 : LogRecord)
    (ei : pyval) (line : string) (d : list (string * pyval)) :
  record !! "exc_info" = Some ei ->
  truthy ei = true ->
  record !! "exc_text" = Some PNone ->
  _LevelFormatter.format P record = (Returns line, r1) ->
  _JsonRotatingFileHandler._record_to_dict P record = Ok d ->
  In ("exc_text", PNone) d /\
  _JsonRotatingFileHandler._record_to_dict P r1
  = Ok (with_member "exc_text" (PStr (py_str P ei)) d).
Proof.
  intros Hei Tei Het Hfmt Hd. split.
  - destruct (record_to_dict_inv P record d Hd) as (dt & message & _ & _ & ->).
    unfold attr. rewrite Het. cbn [default].
    do 7 right. by left.
  - destruct (format_inv P record r1 line Hfmt) as (lv & sym & Hlv & Hsym & HF).
    destruct (Formatter_format_inv P _ _ _ HF)
      as (message & created & dt & sym' & fn & ei' & et0 & si &
          _ & _ & _ & _ & _ & Hei' & Het' & _ & -> & _).
    unfold setattr in Hei', Het'. rewrite lookup_insert_ne in Hei', Het' by done.
    assert (ei' = ei) by congruence. assert (et0 = PNone) by congruence. subst.
    unfold cached_exc_text. rewrite Tei. cbn [truthy negb andb].
    apply record_to_dict_exc_text.
    rewrite <- Hd. apply record_to_dict_ext. intros k H1 H2 H3.
    unfold setattr. by rewrite !lookup_insert_ne.
Qed.

Lemma json_exc_text_from_console_witness :
  In ("exc_text", PNone) Cases.failed_dict /\
  _JsonRotatingFileHandler._record_to_dict Sample.P Cases.failed_formatted
  = Ok (with_member "exc_text" (PStr (py_str Sample.P (PStr "ValueError")))
          Cases.failed_dict).
Proof.
  apply (json_exc_text_from_console Sample.P Cases.failed_record
           Cases.failed_formatted (PStr "ValueError") Cases.failed_line
           Cases.failed_dict).
  - vm_compute. reflexivity.
  - reflexivity.
  - vm_compute. reflexivity.
  - vm_compute. reflexivity.
  - vm_compute. reflexivity.
Defined.

(** X14.  The console handler contains every failure of the formatter:
    [emit] returns normally, standard error gains exactly one entry, the
    rendered line or the report of the exception, and no file and no
    logger is touched. *)
Theorem console_emit_contains_failures (P : Platform) (record : LogRecord)
    (w : world) :
  exists r1 w',
    StreamHandler_emit P record w = (Returns r1, w') /\
    ((exists line, _LevelFormatter.format P record = (Returns line, r1) /\
                   stderr w' = (stderr w ++ [Written (line +:+ NL)])%list) \/
     (exists e, _LevelFormatter.format P record = (Raises e, r1) /\
                stderr w' = (stderr w ++ [LoggingError e])%list)) /\
    fs w' = fs w /\ loggers w' = loggers w.
Proof.
  rewrite StreamHandler_emit_cases.
  pose proof (format_settles P record) as Hs.
  destruct (_LevelFormatter.format P record) as [[line|e|] r1] eqn:Hfmt;
    cbn [fst snd] in *; [| |done].
  - eexists _, _. split; [reflexivity|]. split; [left; eauto|]. done.
  - eexists _, _. split; [reflexivity|]. split; [right; eauto|]. done.
Qed.

(** ** From the override map to the log file *)



(** ** Setting a logger up *)

(** X16.  [create_logger] returns the logger it was asked for, at level
    DEBUG, and leaves the rest of the process alone: no other logger
    changes, nothing is written to standard error, and in the file
    system the only change is that the log directory exists afterwards;
    what was at its path stays, and the log file itself is not created. *)
Theorem create_logger_leaves_rest_alone (P : Platform) (name : string) (w : world) :
  fresh_ids w name ->
  exists w',
    _LogManager.create_logger P name w = (Returns name, w') /\
    llevel (registered w' name) = DEBUG /\
    (forall other, other <> name -> loggers w' !! other = loggers w !! other) /\
    stderr w' = stderr w /\
    fs w' !! _LogManager._log_dir
      = Some (default Dir (fs w !! _LogManager._log_dir)) /\
    (forall path, path <> _LogManager._log_dir -> fs w' !! path = fs w !! path).
Proof.
  intros Hfresh.
  destruct (create_logger_spec P name w Hfresh)
    as (w' & Hrun & Hlog & Hfs & Herr & _ & _).
  exists w'. split; [done|]. split.
  { unfold registered. rewrite Hlog, lookup_insert_eq. reflexivity. }
  split.
  { intros other Ho. rewrite Hlog. by rewrite lookup_insert_ne. }
  split; [done|].
  rewrite Hfs. case_bool_decide as Hp.
  - split; [|done]. destruct Hp as [n ->]. reflexivity.
  - split.
    + rewrite lookup_insert_eq.
      destruct (fs w !! _LogManager._log_dir) eqn:E; [|done].
      destruct Hp. eauto.
    + intros path Hpath. by rewrite lookup_insert_ne.
Qed.

Lemma create_logger_leaves_rest_alone_witness :
  exists w',
    _LogManager.create_logger Sample.P logger_name Posix.boot
      = (Returns logger_name, w') /\
    llevel (registered w' logger_name) = DEBUG /\
    (forall other, other <> logger_name ->
       loggers w' !! other = loggers Posix.boot !! other) /\
    stderr w' = stderr Posix.boot /\
    fs w' !! _LogManager._log_dir
      = Some (default Dir (fs Posix.boot !! _LogManager._log_dir)) /\
    (forall path, path <> _LogManager._log_dir ->
       fs w' !! path = fs Posix.boot !! path).
Proof.
  apply (create_logger_leaves_rest_alone Sample.P logger_name Posix.boot).
  split; vm_compute; constructor.
Defined.

(** ** Messages from Qt *)

Lemma Handler_handle_keeps (P : Platform) (h : handler) (record : LogRecord) (w : world) :
  exists record' w',
    Handler_handle P h record w = (Returns record', w') /\
    record' !! "levelno" = record !! "levelno" /\
    loggers w' = loggers w.
Proof.
  unfold Handler_handle. destruct (hkind h) as [|cfg].
  - rewrite StreamHandler_emit_cases. eexists _, _. split; [done|].
    split; [by apply format_frame|].
    by destruct ((_LevelFormatter.format P record).1).
  - run_stx. rewrite emit_cases. eexists _, _. split; [done|]. split; [done|].
    unfold emit_effect.
    destruct (_JsonRotatingFileHandler._record_to_dict P record) as [d|e];
      destruct (fs w !! baseFilename cfg) as [[?|]|];
      try destruct (json_dump d) as [text []]; reflexivity.
Qed.

Lemma callHandlers_keeps (P : Platform) (hs : list handler) (record : LogRecord)
    (w : world) (n : Z) :
  record !! "levelno" = Some (PInt n) ->
  exists w', callHandlers P hs record w = (Returns tt, w') /\ loggers w' = loggers w.
Proof.
  revert record w. induction hs as [|h hs IH]; intros record w Hn.
  - by eexists.
  - cbn [callHandlers]. run_stx. unfold getattr. rewrite Hn. cbn.
    destruct (hlevel h <=? n).
    + destruct (Handler_handle_keeps P h record w) as (r' & w' & -> & Hl & Hw).
      destruct (IH r' w') as (w'' & Hrun & Hw''); [by rewrite Hl|].
      exists w''. split; [done|]. congruence.
    + by apply IH.
Qed.

Lemma qt_call_delivers (P : Platform) (fuel : nat) (level lineno : Z)
    (context : QMessageLogContext) (msg : string) (w : world) (lg : Logger) :
  loggers w !! logger_name = Some lg ->
  llevel lg <= level ->
  logger P (S fuel) level (qt_site lineno) (PStr msg) false false
    (Some {[ "cover" := PDict (qt_cover P context) ]}) w
  = callHandlers P (lhandlers lg)
      (match lfilters lg with
       | [] => ({[ "cover" := PDict (qt_cover P context) ]} : gmap string pyval) ∪
               LogRecord_init P w logger_name level (qt_site lineno) (PStr msg)
                 (PTuple []) PNone PNone
       | _ => map_fold _CoverFilter.cover_step
                (({[ "cover" := PDict (qt_cover P context) ]} : gmap string pyval) ∪
                 LogRecord_init P w logger_name level (qt_site lineno) (PStr msg)
                   (PTuple []) PNone PNone)
                (qt_cover P context)
       end) w.
Proof.
  intros Hlg Hlevel.
  destruct (qt_cover_lookup P context) as (Hcc & _).
  set (rv := LogRecord_init P w logger_name level (qt_site lineno) (PStr msg)
               (PTuple []) PNone PNone).
  set (record0 := ({[ "cover" := PDict (qt_cover P context) ]} : gmap string pyval) ∪ rv).
  assert (H0 : record0 !! "cover" = Some (PDict (qt_cover P context))).
  { apply (qt_record_lookup P w level (qt_site lineno) (PStr msg) "cover"). }
  unfold logger, Logger_log, the_logger. run_stx.
  rewrite Hlg. cbn beta iota. rewrite (proj2 (Z.leb_le _ _) Hlevel).
  unfold makeRecord. run_stx. cbn beta iota. fold rv.
  assert (Hallow : extra_allowed rv {[ "cover" := PDict (qt_cover P context) ]} = true)
    by apply (qt_record_lookup P w level (qt_site lineno) (PStr msg) "cover").
  rewrite Hallow. cbn beta iota. fold record0.
  cbn [Logger_handle]. unfold the_logger. run_stx. rewrite Hlg. cbn beta iota.
  rewrite (Filterer_filter_cover _ _ record0 (qt_cover P context) w H0 Hcc).
  cbn beta iota. by destruct (lfilters lg) as [|f fl].
Qed.

Lemma qt_dispatch (P : Platform) (mode : QtMsgType) (level : Z)
    (context : QMessageLogContext) (msg : string) :
  spec_severity mode = Some level ->
  exists lineno, forall call : logger_call,
    qt_message_handler P call mode context msg
    = call level (qt_site lineno) (PStr msg) false false
        (Some {[ "cover" := PDict (qt_cover P context) ]}).
Proof.
  intros Hmode.
  destruct mode; cbn in Hmode; try discriminate;
    injection Hmode as <-; eexists; intros; reflexivity.
Qed.

(** X17.  The record of a Qt message names the place in the QML source,
    not the Python line that logged it: its file name is the base name of
    the context's file, its line number the context's line, its function
    name the context's function, with the placeholder [?] for what the
    context does not have and the arrow for an empty function name.  The
    category and the version of the context are dropped: a record has no
    such attributes, and the filter adds none. *)
Theorem qt_record_names_qml_source (P : Platform) (fuel : nat) (mode : QtMsgType)
    (level : Z) (context : QMessageLogContext) (msg : string) (w : world)
    (lg : Logger) :
  spec_severity mode = Some level ->
  loggers w !! logger_name = Some lg ->
  llevel lg <= level ->
  lfilters lg <> [] ->
  exists record,
    qt_message_handler P (logger P (S fuel)) mode context msg w
    = callHandlers P (lhandlers lg) record w /\
    record !! "filename" = Some (PStr (basename P (default "?" (file context)))) /\
    record !! "lineno" = Some (int_or_unknown (line context)) /\
    record !! "funcName" = Some (PStr (qt_funcName context)) /\
    record !! "pathname" = Some (PStr "umi_log.py") /\
    record !! "name" = Some (PStr logger_name) /\
    record !! "category" = None /\
    record !! "version" = None.
Proof.
  intros Hmode Hlg Hlevel Hf.
  destruct (qt_dispatch P mode level context msg Hmode) as [lineno Hd].
  eexists. split.
  - rewrite Hd. rewrite (qt_call_delivers P fuel level lineno context msg w lg Hlg Hlevel).
    destruct (lfilters lg) as [|f fl]; [by destruct Hf|reflexivity].
  - pose proof (fun k => proj2 (proj2 (qt_record_lookup P w level (qt_site lineno)
                                         (PStr msg) k (PDict (qt_cover P context)))))
      as Hother.
    cbn zeta in Hother.
    rewrite !cover_loop_lookup, !Hother by done.
    repeat split; try reflexivity.
    unfold qt_cover, qt_funcName.
    destruct (function context) as [[|c f]|]; reflexivity.
Qed.

Lemma qt_record_names_qml_source_witness :
  exists record,
    qt_message_handler Sample.P (logger Sample.P 1) QtWarningMsg Cases.bare_context
      "binding loop" Sample.imported
    = callHandlers Sample.P (lhandlers (registered Sample.imported logger_name))
        record Sample.imported /\
    record !! "filename"
      = Some (PStr (basename Sample.P (default "?" (file Cases.bare_context)))) /\
    record !! "lineno" = Some (int_or_unknown (line Cases.bare_context)) /\
    record !! "funcName" = Some (PStr (qt_funcName Cases.bare_context)) /\
    record !! "pathname" = Some (PStr "umi_log.py") /\
    record !! "name" = Some (PStr logger_name) /\
    record !! "category" = None /\
    record !! "version" = None.
Proof.
  apply (qt_record_names_qml_source Sample.P 0 QtWarningMsg WARNING Cases.bare_context
           "binding loop" Sample.imported (registered Sample.imported logger_name)).
  - reflexivity.
  - vm_compute. reflexivity.
  - vm_compute. discriminate.
  - vm_compute. discriminate.
Defined.

(** X18.  Once the global logger is registered, the Qt handler returns
    normally for every mode, context and message, whatever the handlers
    of the logger run into, and it leaves the loggers as they are. *)
Theorem qt_handler_always_returns (P : Platform) (fuel : nat) (mode : QtMsgType)
    (context : QMessageLogContext) (msg : string) (w : world) (lg : Logger) :
  loggers w !! logger_name = Some lg ->
  exists w',
    qt_message_handler P (logger P (S fuel)) mode context msg w = (Returns tt, w') /\
    loggers w' = loggers w.
Proof.
  intros Hlg.
  destruct (spec_severity mode) as [level|] eqn:Hmode.
  - destruct (qt_dispatch P mode level context msg Hmode) as [lineno Hd].
    rewrite Hd.
    destruct (Z.le_gt_cases (llevel lg) level) as [Hle|Hgt].
    + rewrite (qt_call_delivers P fuel level lineno context msg w lg Hlg Hle).
      apply (callHandlers_keeps P _ _ w level).
      pose proof (fun k => proj2 (proj2 (qt_record_lookup P w level (qt_site lineno)
                                           (PStr msg) k (PDict (qt_cover P context)))))
        as Hother.
      cbn zeta in Hother.
      destruct (lfilters lg) as [|f fl].
      * by rewrite Hother.
      * rewrite cover_loop_lookup, Hother by done. reflexivity.
    + exists w. unfold logger, Logger_log, the_logger. run_stx.
      rewrite Hlg. cbn beta iota.
      rewrite (proj2 (Z.leb_gt _ _)) by lia. done.
  - destruct mode; try discriminate. by exists w.
Qed.

Lemma qt_handler_always_returns_witness :
  exists w',
    qt_message_handler Sample.P (logger Sample.P 1) QtCriticalMsg Cases.bare_context
      "boom" Sample.twice = (Returns tt, w') /\
    loggers w' = loggers Sample.twice.
Proof.
  apply (qt_handler_always_returns Sample.P 0 QtCriticalMsg Cases.bare_context "boom"
           Sample.twice (registered Sample.twice logger_name)).
  vm_compute. reflexivity.
Defined.
